(** * ElectroVault inventory manager: the data store of [app.py]

    A shallow embedding of the inventory logic of [src/app.py] (the
    Streamlit application "ElectroVault | Inventory Manager") and the
    properties of its specification.

    Conventions of the embedding.
    - A Python [int] is a [Z].  A price is a Python [float] in the source;
      it is embedded as an exact rational ([Qc]), so rounding is outside
      this development.
    - A Python [str] is the [string] of the bytes of its UTF-8 encoding;
      [str.lower] follows the Unicode database, with the rule of the
      final sigma.
    - An item is a Python dict with the keys [id], [name], [category],
      [price], [qty]; it is embedded as a record with these fields.
    - [st.session_state], the file [electrovault_inventory.json] and the
      [st.cache_data] memo of [load_data] are threaded as explicit state.
    - The built-in functions ([sum], [max], [str.lower], [in]) behave as
      in Python 3.11, whose Unicode database is version 14.0.0. *)

From Stdlib Require Import ZArith NArith List Bool Lia String Ascii.
From Stdlib Require Import QArith Qcanon.
From Stdlib Require Import Permutation Sorted.
From Stdlib Require Import DecimalString.
Import ListNotations.

Set Warnings "-register-all".

Local Open Scope string_scope.
Local Open Scope Z_scope.

(** ** Python primitives *)

(** [bool(s)] of a [str]: the empty string is falsy. *)
Definition truthy_str (s : string) : bool :=
  match s with
  | EmptyString => false
  | String _ _ => true
  end.

(** [bool(n)] of an [int]. *)
Definition truthy_int (n : Z) : bool := negb (n =? 0).

(** [bool(x)] of a [float]. *)
Definition truthy_float (x : Qc) : bool :=
  if Qc_eq_dec x 0%Qc then false else true.

(** [sum(xs)] over ints: a left fold that starts at [0]. *)
Definition py_sum (xs : list Z) : Z := fold_left Z.add xs 0.

(** [sum(xs)] over floats: the same left fold. *)
Definition py_fsum (xs : list Qc) : Qc := fold_left Qcplus xs 0%Qc.

(** [max(x :: xs)]: the running maximum, left to right. *)
Definition py_max (x : Z) (xs : list Z) : Z := fold_left Z.max xs x.

(** [str(n)] of an [int]. *)
Definition py_str (n : Z) : string := NilZero.string_of_int (Z.to_int n).

(** ** Items and the built-in inventory *)

Record Item : Type := mkItem {
  id : Z;
  name : string;
  category : string;
  price : Qc;
  qty : Z
}.

(** A decimal literal [n / 10^k] of the source, e.g. [1599.99]. *)
Definition dec (n : Z) (d : positive) : Qc := Q2Qc (n # d).

Definition DEFAULT_INVENTORY : list Item :=
  [ mkItem 1 "GeForce RTX 4090" "GPU" (dec 159999 100) 3;
    mkItem 2 "MacBook Pro M2" "Laptop" (dec 249900 100) 8;
    mkItem 3 "Samsung S24 Ultra" "Mobile" (dec 119950 100) 12;
    mkItem 4 "Sony WH-1000XM5" "Accessory" (dec 34800 100) 25 ].

(** The keys of [CATEGORY_ICONS], the options of the category select box. *)
Definition CATEGORY_ICONS_keys : list string :=
  [ "GPU"; "CPU"; "Mobile"; "Laptop"; "Accessory"; "Other" ].

(** ** JSON documents and the persisted file *)

(** What [json.load] yields and [json.dump] accepts. *)
Inductive json : Type :=
| JNull
| JBool (b : bool)
| JInt (z : Z)
| JFloat (x : Qc)
| JStr (s : string)
| JArr (elems : list json)
| JObj (fields : list (string * json)).

(** The dict literal of [add_item_form] and of [DEFAULT_INVENTORY], in
    its key order. *)
Definition item_json (it : Item) : json :=
  JObj [ ("id", JInt (id it));
         ("name", JStr (name it));
         ("category", JStr (category it));
         ("price", JFloat (price it));
         ("qty", JInt (qty it)) ].

Definition inventory_json (inv : list Item) : json :=
  JArr (map item_json inv).

(** The text of the file, seen through [json.load]: text that the decoder
    refuses, or text that stands for a document.  [json.dump d] writes a
    text of the second kind, standing for [d]. *)
Inductive FileText : Type :=
| Malformed
| Encodes (doc : json).

Inductive exn : Type :=
| JSONDecodeError.

Inductive result (A : Type) : Type :=
| Ok (a : A)
| Raise (e : exn).
Arguments Ok {A} a.
Arguments Raise {A} e.

(** [disk] is [None] when [DATA_PATH] does not exist; [cache] is the memo
    that [st.cache_data] keeps for [load_data]. *)
Record Storage : Type := mkStorage {
  disk : option FileText;
  cache : option json
}.

(** [load_data()]: the memoised value when there is one; otherwise the
    body runs and its value (not its exception) is memoised. *)
Definition load_data (s : Storage) : result json * Storage :=
  match cache s with
  | Some v => (Ok v, s)
  | None =>
      match disk s with
      | Some (Encodes doc) => (Ok doc, mkStorage (disk s) (Some doc))
      | Some Malformed => (Raise JSONDecodeError, s)
      | None =>
          let v := inventory_json DEFAULT_INVENTORY in
          (Ok v, mkStorage (disk s) (Some v))
      end
  end.

(** [load_data.clear()]. *)
Definition load_data_clear (s : Storage) : Storage :=
  mkStorage (disk s) None.

(** [save_data(data)]: overwrite the file, then clear the memo. *)
Definition save_data (data : json) (s : Storage) : Storage :=
  load_data_clear (mkStorage (Some (Encodes data)) (cache s)).

(** ** Session state and the mutating operations *)

(** [st.session_state]: the keys ['inventory'] and ['show_modal'] (which
    may be absent), together with the storage the operations write to. *)
Record World : Type := mkWorld {
  inventory : list Item;
  show_modal : option bool;
  storage : Storage
}.

Inductive Notice : Type :=
| success (msg : string)
| error (msg : string).

(** [max([item['id'] for item in inventory]) + 1 if inventory else 1]. *)
Definition new_id (inv : list Item) : Z :=
  match inv with
  | [] => 1
  | it :: rest => py_max (id it) (map id rest) + 1
  end.

(** The body of [add_item_form] for the values [nm], [cat], [p], [q] of
    the four widgets and the state [submitted] of the submit button. *)
Definition add_item_form (nm cat : string) (p : Qc) (q : Z)
    (submitted : bool) (w : World) : World * list Notice :=
  match show_modal w with
  | Some true =>
      if submitted then
        if truthy_str nm && truthy_float p && truthy_int q then
          let new_item := mkItem (new_id (inventory w)) nm cat p q in
          let inv := new_item :: inventory w in
          (mkWorld inv (Some false)
                   (save_data (inventory_json inv) (storage w)),
           [success ("Added " ++ nm ++ " to the vault!")%string])
        else (w, [error "Please fill out all fields."])
      else (w, [])
  | _ => (w, [])
  end.

(** [delete_item(item_id)]. *)
Definition delete_item (item_id : Z) (w : World) : World * list Notice :=
  let inv := filter (fun it => negb (id it =? item_id)) (inventory w) in
  (mkWorld inv (show_modal w)
           (load_data_clear (save_data (inventory_json inv) (storage w))),
   [success ("Item ID " ++ py_str item_id ++ " successfully purged.")%string]).

(** [clear_data()]. *)
Definition clear_data (w : World) : World :=
  mkWorld [] (show_modal w) (save_data (inventory_json []) (storage w)).

(** The bounds of the two [st.number_input] widgets of the form
    ([min_value=0.01] and [min_value=1]) and the options of its select
    box: what a submitted form can hold. *)
Definition widget_range (cat : string) (p : Qc) (q : Z) : Prop :=
  In cat CATEGORY_ICONS_keys /\ (dec 1 100 <= p)%Qc /\ 1 <= q.

(** The Item shape of a persisted record: an object with an integer [id],
    string [name] and [category], a numeric [price] and an integer [qty].
    [load_data] itself performs no such check; the shape is used to state
    what it returns. *)
Fixpoint field (key : string) (fields : list (string * json)) : option json :=
  match fields with
  | [] => None
  | (k, v) :: rest => if (k =? key)%string then Some v else field key rest
  end.

Definition as_number (j : json) : option Qc :=
  match j with
  | JInt z => Some (Q2Qc (inject_Z z))
  | JFloat x => Some x
  | _ => None
  end.

Definition as_item (j : json) : option Item :=
  match j with
  | JObj fields =>
      match field "id" fields, field "name" fields, field "category" fields,
            field "price" fields, field "qty" fields with
      | Some (JInt i), Some (JStr n), Some (JStr c), Some p, Some (JInt q) =>
          option_map (fun x => mkItem i n c x q) (as_number p)
      | _, _, _, _, _ => None
      end
  | _ => None
  end.

Fixpoint as_items (js : list json) : option (list Item) :=
  match js with
  | [] => Some []
  | j :: rest =>
      match as_item j, as_items rest with
      | Some it, Some its => Some (it :: its)
      | _, _ => None
      end
  end.

Definition as_inventory (j : json) : option (list Item) :=
  match j with
  | JArr js => as_items js
  | _ => None
  end.

(** ** The inventory view: search and statistics *)

(** [c.lower()] on one character: the ASCII capitals move by 32. *)
Definition lower_char (c : ascii) : ascii :=
  let n := nat_of_ascii c in
  if (65 <=? n)%nat && (n <=? 90)%nat then ascii_of_nat (n + 32) else c.

(** [s.lower()] for a [str] that is all ASCII. *)
Fixpoint ascii_lower (s : string) : string :=
  match s with
  | EmptyString => EmptyString
  | String c rest => String (lower_char c) (ascii_lower rest)
  end.

(** ** Text *)

(** A [str] is a sequence of code points.  It is embedded as the
    [string] of the bytes of its UTF-8 encoding: for text in ASCII, one
    byte per character.  [utf8_decode] reads the code points back; a byte
    that belongs to no well-formed sequence (there is none in the
    encoding of a [str]) is kept as it is. *)
Inductive Symbol : Type :=
| Char (cp : N)
| Raw (b : ascii).

Definition byte (c : ascii) : N := N_of_ascii c.

Definition continuation (c : ascii) : bool :=
  (128 <=? byte c)%N && (byte c <? 192)%N.

(** The code points of two, three and four bytes, when the bytes are
    such a sequence in shortest form. *)
Definition decode2 (b0 b1 : ascii) : option N :=
  let cp := ((byte b0 - 192) * 64 + (byte b1 - 128))%N in
  if (192 <=? byte b0)%N && (byte b0 <? 224)%N && continuation b1
     && (128 <=? cp)%N
  then Some cp else None.

Definition decode3 (b0 b1 b2 : ascii) : option N :=
  let cp := ((byte b0 - 224) * 4096 + (byte b1 - 128) * 64
             + (byte b2 - 128))%N in
  if (224 <=? byte b0)%N && (byte b0 <? 240)%N
     && continuation b1 && continuation b2
     && (2048 <=? cp)%N && negb ((55296 <=? cp)%N && (cp <=? 57343)%N)
  then Some cp else None.

Definition decode4 (b0 b1 b2 b3 : ascii) : option N :=
  let cp := ((byte b0 - 240) * 262144 + (byte b1 - 128) * 4096
             + (byte b2 - 128) * 64 + (byte b3 - 128))%N in
  if (240 <=? byte b0)%N && (byte b0 <? 248)%N
     && continuation b1 && continuation b2 && continuation b3
     && (65536 <=? cp)%N && (cp <=? 1114111)%N
  then Some cp else None.

Fixpoint utf8_decode (s : string) : list Symbol :=
  match s with
  | EmptyString => []
  | String b0 rest =>
      if (byte b0 <? 128)%N then Char (byte b0) :: utf8_decode rest
      else
        match rest with
        | String b1 rest1 =>
            match decode2 b0 b1 with
            | Some cp => Char cp :: utf8_decode rest1
            | None =>
                match rest1 with
                | String b2 rest2 =>
                    match decode3 b0 b1 b2 with
                    | Some cp => Char cp :: utf8_decode rest2
                    | None =>
                        match rest2 with
                        | String b3 rest3 =>
                            match decode4 b0 b1 b2 b3 with
                            | Some cp => Char cp :: utf8_decode rest3
                            | None => Raw b0 :: utf8_decode rest
                            end
                        | EmptyString => Raw b0 :: utf8_decode rest
                        end
                    end
                | EmptyString => Raw b0 :: utf8_decode rest
                end
            end
        | EmptyString => [Raw b0]
        end
  end.

Definition bytes (l : list N) : string :=
  string_of_list_ascii (map ascii_of_N l).

Definition utf8_encode_char (cp : N) : string :=
  (if cp <? 128 then bytes [cp]
   else if cp <? 2048 then bytes [192 + cp / 64; 128 + cp mod 64]
   else if cp <? 65536 then
     bytes [224 + cp / 4096; 128 + (cp / 64) mod 64; 128 + cp mod 64]
   else
     bytes [240 + cp / 262144; 128 + (cp / 4096) mod 64;
            128 + (cp / 64) mod 64; 128 + cp mod 64])%N.

Fixpoint utf8_encode (l : list Symbol) : string :=
  match l with
  | [] => EmptyString
  | Char cp :: rest => (utf8_encode_char cp ++ utf8_encode rest)%string
  | Raw b :: rest => String b (utf8_encode rest)
  end.

(** The lowercase mappings of the Unicode database (version 14.0.0):
    a row [(first, last, step, target)] sends the code points [first],
    [first + step], ... up to [last] to [target], [target + step], ... *)
Definition Lowercase_Mapping : list (N * N * N * N) :=
  [
    (0x41, 0x5A, 1, 0x61); (0xC0, 0xD6, 1, 0xE0); (0xD8, 0xDE, 1, 0xF8);
    (0x100, 0x12E, 2, 0x101); (0x132, 0x136, 2, 0x133); (0x139, 0x147, 2, 0x13A);
    (0x14A, 0x176, 2, 0x14B); (0x178, 0x178, 1, 0xFF); (0x179, 0x17D, 2, 0x17A);
    (0x181, 0x181, 1, 0x253); (0x182, 0x184, 2, 0x183); (0x186, 0x186, 1, 0x254);
    (0x187, 0x187, 1, 0x188); (0x189, 0x18A, 1, 0x256); (0x18B, 0x18B, 1, 0x18C);
    (0x18E, 0x18E, 1, 0x1DD); (0x18F, 0x18F, 1, 0x259); (0x190, 0x190, 1, 0x25B);
    (0x191, 0x191, 1, 0x192); (0x193, 0x193, 1, 0x260); (0x194, 0x194, 1, 0x263);
    (0x196, 0x196, 1, 0x269); (0x197, 0x197, 1, 0x268); (0x198, 0x198, 1, 0x199);
    (0x19C, 0x19C, 1, 0x26F); (0x19D, 0x19D, 1, 0x272); (0x19F, 0x19F, 1, 0x275);
    (0x1A0, 0x1A4, 2, 0x1A1); (0x1A6, 0x1A6, 1, 0x280); (0x1A7, 0x1A7, 1, 0x1A8);
    (0x1A9, 0x1A9, 1, 0x283); (0x1AC, 0x1AC, 1, 0x1AD); (0x1AE, 0x1AE, 1, 0x288);
    (0x1AF, 0x1AF, 1, 0x1B0); (0x1B1, 0x1B2, 1, 0x28A); (0x1B3, 0x1B5, 2, 0x1B4);
    (0x1B7, 0x1B7, 1, 0x292); (0x1B8, 0x1B8, 1, 0x1B9); (0x1BC, 0x1BC, 1, 0x1BD);
    (0x1C4, 0x1C4, 1, 0x1C6); (0x1C5, 0x1C5, 1, 0x1C6); (0x1C7, 0x1C7, 1, 0x1C9);
    (0x1C8, 0x1C8, 1, 0x1C9); (0x1CA, 0x1CA, 1, 0x1CC); (0x1CB, 0x1DB, 2, 0x1CC);
    (0x1DE, 0x1EE, 2, 0x1DF); (0x1F1, 0x1F1, 1, 0x1F3); (0x1F2, 0x1F4, 2, 0x1F3);
    (0x1F6, 0x1F6, 1, 0x195); (0x1F7, 0x1F7, 1, 0x1BF); (0x1F8, 0x21E, 2, 0x1F9);
    (0x220, 0x220, 1, 0x19E); (0x222, 0x232, 2, 0x223); (0x23A, 0x23A, 1, 0x2C65);
    (0x23B, 0x23B, 1, 0x23C); (0x23D, 0x23D, 1, 0x19A); (0x23E, 0x23E, 1, 0x2C66);
    (0x241, 0x241, 1, 0x242); (0x243, 0x243, 1, 0x180); (0x244, 0x244, 1, 0x289);
    (0x245, 0x245, 1, 0x28C); (0x246, 0x24E, 2, 0x247); (0x370, 0x372, 2, 0x371);
    (0x376, 0x376, 1, 0x377); (0x37F, 0x37F, 1, 0x3F3); (0x386, 0x386, 1, 0x3AC);
    (0x388, 0x38A, 1, 0x3AD); (0x38C, 0x38C, 1, 0x3CC); (0x38E, 0x38F, 1, 0x3CD);
    (0x391, 0x3A1, 1, 0x3B1); (0x3A3, 0x3AB, 1, 0x3C3); (0x3CF, 0x3CF, 1, 0x3D7);
    (0x3D8, 0x3EE, 2, 0x3D9); (0x3F4, 0x3F4, 1, 0x3B8); (0x3F7, 0x3F7, 1, 0x3F8);
    (0x3F9, 0x3F9, 1, 0x3F2); (0x3FA, 0x3FA, 1, 0x3FB); (0x3FD, 0x3FF, 1, 0x37B);
    (0x400, 0x40F, 1, 0x450); (0x410, 0x42F, 1, 0x430); (0x460, 0x480, 2, 0x461);
    (0x48A, 0x4BE, 2, 0x48B); (0x4C0, 0x4C0, 1, 0x4CF); (0x4C1, 0x4CD, 2, 0x4C2);
    (0x4D0, 0x52E, 2, 0x4D1); (0x531, 0x556, 1, 0x561); (0x10A0, 0x10C5, 1, 0x2D00);
    (0x10C7, 0x10C7, 1, 0x2D27); (0x10CD, 0x10CD, 1, 0x2D2D); (0x13A0, 0x13EF, 1, 0xAB70);
    (0x13F0, 0x13F5, 1, 0x13F8); (0x1C90, 0x1CBA, 1, 0x10D0); (0x1CBD, 0x1CBF, 1, 0x10FD);
    (0x1E00, 0x1E94, 2, 0x1E01); (0x1E9E, 0x1E9E, 1, 0xDF); (0x1EA0, 0x1EFE, 2, 0x1EA1);
    (0x1F08, 0x1F0F, 1, 0x1F00); (0x1F18, 0x1F1D, 1, 0x1F10); (0x1F28, 0x1F2F, 1, 0x1F20);
    (0x1F38, 0x1F3F, 1, 0x1F30); (0x1F48, 0x1F4D, 1, 0x1F40); (0x1F59, 0x1F5F, 2, 0x1F51);
    (0x1F68, 0x1F6F, 1, 0x1F60); (0x1F88, 0x1F8F, 1, 0x1F80); (0x1F98, 0x1F9F, 1, 0x1F90);
    (0x1FA8, 0x1FAF, 1, 0x1FA0); (0x1FB8, 0x1FB9, 1, 0x1FB0); (0x1FBA, 0x1FBB, 1, 0x1F70);
    (0x1FBC, 0x1FBC, 1, 0x1FB3); (0x1FC8, 0x1FCB, 1, 0x1F72); (0x1FCC, 0x1FCC, 1, 0x1FC3);
    (0x1FD8, 0x1FD9, 1, 0x1FD0); (0x1FDA, 0x1FDB, 1, 0x1F76); (0x1FE8, 0x1FE9, 1, 0x1FE0);
    (0x1FEA, 0x1FEB, 1, 0x1F7A); (0x1FEC, 0x1FEC, 1, 0x1FE5); (0x1FF8, 0x1FF9, 1, 0x1F78);
    (0x1FFA, 0x1FFB, 1, 0x1F7C); (0x1FFC, 0x1FFC, 1, 0x1FF3); (0x2126, 0x2126, 1, 0x3C9);
    (0x212A, 0x212A, 1, 0x6B); (0x212B, 0x212B, 1, 0xE5); (0x2132, 0x2132, 1, 0x214E);
    (0x2160, 0x216F, 1, 0x2170); (0x2183, 0x2183, 1, 0x2184); (0x24B6, 0x24CF, 1, 0x24D0);
    (0x2C00, 0x2C2F, 1, 0x2C30); (0x2C60, 0x2C60, 1, 0x2C61); (0x2C62, 0x2C62, 1, 0x26B);
    (0x2C63, 0x2C63, 1, 0x1D7D); (0x2C64, 0x2C64, 1, 0x27D); (0x2C67, 0x2C6B, 2, 0x2C68);
    (0x2C6D, 0x2C6D, 1, 0x251); (0x2C6E, 0x2C6E, 1, 0x271); (0x2C6F, 0x2C6F, 1, 0x250);
    (0x2C70, 0x2C70, 1, 0x252); (0x2C72, 0x2C72, 1, 0x2C73); (0x2C75, 0x2C75, 1, 0x2C76);
    (0x2C7E, 0x2C7F, 1, 0x23F); (0x2C80, 0x2CE2, 2, 0x2C81); (0x2CEB, 0x2CED, 2, 0x2CEC);
    (0x2CF2, 0x2CF2, 1, 0x2CF3); (0xA640, 0xA66C, 2, 0xA641); (0xA680, 0xA69A, 2, 0xA681);
    (0xA722, 0xA72E, 2, 0xA723); (0xA732, 0xA76E, 2, 0xA733); (0xA779, 0xA77B, 2, 0xA77A);
    (0xA77D, 0xA77D, 1, 0x1D79); (0xA77E, 0xA786, 2, 0xA77F); (0xA78B, 0xA78B, 1, 0xA78C);
    (0xA78D, 0xA78D, 1, 0x265); (0xA790, 0xA792, 2, 0xA791); (0xA796, 0xA7A8, 2, 0xA797);
    (0xA7AA, 0xA7AA, 1, 0x266); (0xA7AB, 0xA7AB, 1, 0x25C); (0xA7AC, 0xA7AC, 1, 0x261);
    (0xA7AD, 0xA7AD, 1, 0x26C); (0xA7AE, 0xA7AE, 1, 0x26A); (0xA7B0, 0xA7B0, 1, 0x29E);
    (0xA7B1, 0xA7B1, 1, 0x287); (0xA7B2, 0xA7B2, 1, 0x29D); (0xA7B3, 0xA7B3, 1, 0xAB53);
    (0xA7B4, 0xA7C2, 2, 0xA7B5); (0xA7C4, 0xA7C4, 1, 0xA794); (0xA7C5, 0xA7C5, 1, 0x282);
    (0xA7C6, 0xA7C6, 1, 0x1D8E); (0xA7C7, 0xA7C9, 2, 0xA7C8); (0xA7D0, 0xA7D0, 1, 0xA7D1);
    (0xA7D6, 0xA7D8, 2, 0xA7D7); (0xA7F5, 0xA7F5, 1, 0xA7F6); (0xFF21, 0xFF3A, 1, 0xFF41);
    (0x10400, 0x10427, 1, 0x10428); (0x104B0, 0x104D3, 1, 0x104D8); (0x10570, 0x1057A, 1, 0x10597);
    (0x1057C, 0x1058A, 1, 0x105A3); (0x1058C, 0x10592, 1, 0x105B3); (0x10594, 0x10595, 1, 0x105BB);
    (0x10C80, 0x10CB2, 1, 0x10CC0); (0x118A0, 0x118BF, 1, 0x118C0); (0x16E40, 0x16E5F, 1, 0x16E60);
    (0x1E900, 0x1E921, 1, 0x1E922)
  ]%N.

(** The code points that count as cased when a capital sigma is lowered:
    those with the property [Cased] and without [Case_Ignorable], in
    closed ranges. *)
Definition Cased : list (N * N) :=
  [
    (0x41, 0x5A); (0x61, 0x7A); (0xAA, 0xAA); (0xB5, 0xB5); (0xBA, 0xBA);
    (0xC0, 0xD6); (0xD8, 0xF6); (0xF8, 0x1BA); (0x1BC, 0x1BF); (0x1C4, 0x293);
    (0x295, 0x2AF); (0x370, 0x373); (0x376, 0x377); (0x37B, 0x37D); (0x37F, 0x37F);
    (0x386, 0x386); (0x388, 0x38A); (0x38C, 0x38C); (0x38E, 0x3A1); (0x3A3, 0x3F5);
    (0x3F7, 0x481); (0x48A, 0x52F); (0x531, 0x556); (0x560, 0x588); (0x10A0, 0x10C5);
    (0x10C7, 0x10C7); (0x10CD, 0x10CD); (0x10D0, 0x10FA); (0x10FD, 0x10FF); (0x13A0, 0x13F5);
    (0x13F8, 0x13FD); (0x1C80, 0x1C88); (0x1C90, 0x1CBA); (0x1CBD, 0x1CBF); (0x1D00, 0x1D2B);
    (0x1D6B, 0x1D77); (0x1D79, 0x1D9A); (0x1E00, 0x1F15); (0x1F18, 0x1F1D); (0x1F20, 0x1F45);
    (0x1F48, 0x1F4D); (0x1F50, 0x1F57); (0x1F59, 0x1F59); (0x1F5B, 0x1F5B); (0x1F5D, 0x1F5D);
    (0x1F5F, 0x1F7D); (0x1F80, 0x1FB4); (0x1FB6, 0x1FBC); (0x1FBE, 0x1FBE); (0x1FC2, 0x1FC4);
    (0x1FC6, 0x1FCC); (0x1FD0, 0x1FD3); (0x1FD6, 0x1FDB); (0x1FE0, 0x1FEC); (0x1FF2, 0x1FF4);
    (0x1FF6, 0x1FFC); (0x2102, 0x2102); (0x2107, 0x2107); (0x210A, 0x2113); (0x2115, 0x2115);
    (0x2119, 0x211D); (0x2124, 0x2124); (0x2126, 0x2126); (0x2128, 0x2128); (0x212A, 0x212D);
    (0x212F, 0x2134); (0x2139, 0x2139); (0x213C, 0x213F); (0x2145, 0x2149); (0x214E, 0x214E);
    (0x2160, 0x217F); (0x2183, 0x2184); (0x24B6, 0x24E9); (0x2C00, 0x2C7B); (0x2C7E, 0x2CE4);
    (0x2CEB, 0x2CEE); (0x2CF2, 0x2CF3); (0x2D00, 0x2D25); (0x2D27, 0x2D27); (0x2D2D, 0x2D2D);
    (0xA640, 0xA66D); (0xA680, 0xA69B); (0xA722, 0xA76F); (0xA771, 0xA787); (0xA78B, 0xA78E);
    (0xA790, 0xA7CA); (0xA7D0, 0xA7D1); (0xA7D3, 0xA7D3); (0xA7D5, 0xA7D9); (0xA7F5, 0xA7F6);
    (0xA7FA, 0xA7FA); (0xAB30, 0xAB5A); (0xAB60, 0xAB68); (0xAB70, 0xABBF); (0xFB00, 0xFB06);
    (0xFB13, 0xFB17); (0xFF21, 0xFF3A); (0xFF41, 0xFF5A); (0x10400, 0x1044F); (0x104B0, 0x104D3);
    (0x104D8, 0x104FB); (0x10570, 0x1057A); (0x1057C, 0x1058A); (0x1058C, 0x10592); (0x10594, 0x10595);
    (0x10597, 0x105A1); (0x105A3, 0x105B1); (0x105B3, 0x105B9); (0x105BB, 0x105BC); (0x10C80, 0x10CB2);
    (0x10CC0, 0x10CF2); (0x118A0, 0x118DF); (0x16E40, 0x16E7F); (0x1D400, 0x1D454); (0x1D456, 0x1D49C);
    (0x1D49E, 0x1D49F); (0x1D4A2, 0x1D4A2); (0x1D4A5, 0x1D4A6); (0x1D4A9, 0x1D4AC); (0x1D4AE, 0x1D4B9);
    (0x1D4BB, 0x1D4BB); (0x1D4BD, 0x1D4C3); (0x1D4C5, 0x1D505); (0x1D507, 0x1D50A); (0x1D50D, 0x1D514);
    (0x1D516, 0x1D51C); (0x1D51E, 0x1D539); (0x1D53B, 0x1D53E); (0x1D540, 0x1D544); (0x1D546, 0x1D546);
    (0x1D54A, 0x1D550); (0x1D552, 0x1D6A5); (0x1D6A8, 0x1D6C0); (0x1D6C2, 0x1D6DA); (0x1D6DC, 0x1D6FA);
    (0x1D6FC, 0x1D714); (0x1D716, 0x1D734); (0x1D736, 0x1D74E); (0x1D750, 0x1D76E); (0x1D770, 0x1D788);
    (0x1D78A, 0x1D7A8); (0x1D7AA, 0x1D7C2); (0x1D7C4, 0x1D7CB); (0x1DF00, 0x1DF09); (0x1DF0B, 0x1DF1E);
    (0x1E900, 0x1E943); (0x1F130, 0x1F149); (0x1F150, 0x1F169); (0x1F170, 0x1F189)
  ]%N.

(** The code points with the property [Case_Ignorable], in closed
    ranges. *)
Definition Case_Ignorable : list (N * N) :=
  [
    (0x27, 0x27); (0x2E, 0x2E); (0x3A, 0x3A); (0x5E, 0x5E); (0x60, 0x60);
    (0xA8, 0xA8); (0xAD, 0xAD); (0xAF, 0xAF); (0xB4, 0xB4); (0xB7, 0xB8);
    (0x2B0, 0x36F); (0x374, 0x375); (0x37A, 0x37A); (0x384, 0x385); (0x387, 0x387);
    (0x483, 0x489); (0x559, 0x559); (0x55F, 0x55F); (0x591, 0x5BD); (0x5BF, 0x5BF);
    (0x5C1, 0x5C2); (0x5C4, 0x5C5); (0x5C7, 0x5C7); (0x5F4, 0x5F4); (0x600, 0x605);
    (0x610, 0x61A); (0x61C, 0x61C); (0x640, 0x640); (0x64B, 0x65F); (0x670, 0x670);
    (0x6D6, 0x6DD); (0x6DF, 0x6E8); (0x6EA, 0x6ED); (0x70F, 0x70F); (0x711, 0x711);
    (0x730, 0x74A); (0x7A6, 0x7B0); (0x7EB, 0x7F5); (0x7FA, 0x7FA); (0x7FD, 0x7FD);
    (0x816, 0x82D); (0x859, 0x85B); (0x888, 0x888); (0x890, 0x891); (0x898, 0x89F);
    (0x8C9, 0x902); (0x93A, 0x93A); (0x93C, 0x93C); (0x941, 0x948); (0x94D, 0x94D);
    (0x951, 0x957); (0x962, 0x963); (0x971, 0x971); (0x981, 0x981); (0x9BC, 0x9BC);
    (0x9C1, 0x9C4); (0x9CD, 0x9CD); (0x9E2, 0x9E3); (0x9FE, 0x9FE); (0xA01, 0xA02);
    (0xA3C, 0xA3C); (0xA41, 0xA42); (0xA47, 0xA48); (0xA4B, 0xA4D); (0xA51, 0xA51);
    (0xA70, 0xA71); (0xA75, 0xA75); (0xA81, 0xA82); (0xABC, 0xABC); (0xAC1, 0xAC5);
    (0xAC7, 0xAC8); (0xACD, 0xACD); (0xAE2, 0xAE3); (0xAFA, 0xAFF); (0xB01, 0xB01);
    (0xB3C, 0xB3C); (0xB3F, 0xB3F); (0xB41, 0xB44); (0xB4D, 0xB4D); (0xB55, 0xB56);
    (0xB62, 0xB63); (0xB82, 0xB82); (0xBC0, 0xBC0); (0xBCD, 0xBCD); (0xC00, 0xC00);
    (0xC04, 0xC04); (0xC3C, 0xC3C); (0xC3E, 0xC40); (0xC46, 0xC48); (0xC4A, 0xC4D);
    (0xC55, 0xC56); (0xC62, 0xC63); (0xC81, 0xC81); (0xCBC, 0xCBC); (0xCBF, 0xCBF);
    (0xCC6, 0xCC6); (0xCCC, 0xCCD); (0xCE2, 0xCE3); (0xD00, 0xD01); (0xD3B, 0xD3C);
    (0xD41, 0xD44); (0xD4D, 0xD4D); (0xD62, 0xD63); (0xD81, 0xD81); (0xDCA, 0xDCA);
    (0xDD2, 0xDD4); (0xDD6, 0xDD6); (0xE31, 0xE31); (0xE34, 0xE3A); (0xE46, 0xE4E);
    (0xEB1, 0xEB1); (0xEB4, 0xEBC); (0xEC6, 0xEC6); (0xEC8, 0xECD); (0xF18, 0xF19);
    (0xF35, 0xF35); (0xF37, 0xF37); (0xF39, 0xF39); (0xF71, 0xF7E); (0xF80, 0xF84);
    (0xF86, 0xF87); (0xF8D, 0xF97); (0xF99, 0xFBC); (0xFC6, 0xFC6); (0x102D, 0x1030);
    (0x1032, 0x1037); (0x1039, 0x103A); (0x103D, 0x103E); (0x1058, 0x1059); (0x105E, 0x1060);
    (0x1071, 0x1074); (0x1082, 0x1082); (0x1085, 0x1086); (0x108D, 0x108D); (0x109D, 0x109D);
    (0x10FC, 0x10FC); (0x135D, 0x135F); (0x1712, 0x1714); (0x1732, 0x1733); (0x1752, 0x1753);
    (0x1772, 0x1773); (0x17B4, 0x17B5); (0x17B7, 0x17BD); (0x17C6, 0x17C6); (0x17C9, 0x17D3);
    (0x17D7, 0x17D7); (0x17DD, 0x17DD); (0x180B, 0x180F); (0x1843, 0x1843); (0x1885, 0x1886);
    (0x18A9, 0x18A9); (0x1920, 0x1922); (0x1927, 0x1928); (0x1932, 0x1932); (0x1939, 0x193B);
    (0x1A17, 0x1A18); (0x1A1B, 0x1A1B); (0x1A56, 0x1A56); (0x1A58, 0x1A5E); (0x1A60, 0x1A60);
    (0x1A62, 0x1A62); (0x1A65, 0x1A6C); (0x1A73, 0x1A7C); (0x1A7F, 0x1A7F); (0x1AA7, 0x1AA7);
    (0x1AB0, 0x1ACE); (0x1B00, 0x1B03); (0x1B34, 0x1B34); (0x1B36, 0x1B3A); (0x1B3C, 0x1B3C);
    (0x1B42, 0x1B42); (0x1B6B, 0x1B73); (0x1B80, 0x1B81); (0x1BA2, 0x1BA5); (0x1BA8, 0x1BA9);
    (0x1BAB, 0x1BAD); (0x1BE6, 0x1BE6); (0x1BE8, 0x1BE9); (0x1BED, 0x1BED); (0x1BEF, 0x1BF1);
    (0x1C2C, 0x1C33); (0x1C36, 0x1C37); (0x1C78, 0x1C7D); (0x1CD0, 0x1CD2); (0x1CD4, 0x1CE0);
    (0x1CE2, 0x1CE8); (0x1CED, 0x1CED); (0x1CF4, 0x1CF4); (0x1CF8, 0x1CF9); (0x1D2C, 0x1D6A);
    (0x1D78, 0x1D78); (0x1D9B, 0x1DFF); (0x1FBD, 0x1FBD); (0x1FBF, 0x1FC1); (0x1FCD, 0x1FCF);
    (0x1FDD, 0x1FDF); (0x1FED, 0x1FEF); (0x1FFD, 0x1FFE); (0x200B, 0x200F); (0x2018, 0x2019);
    (0x2024, 0x2024); (0x2027, 0x2027); (0x202A, 0x202E); (0x2060, 0x2064); (0x2066, 0x206F);
    (0x2071, 0x2071); (0x207F, 0x207F); (0x2090, 0x209C); (0x20D0, 0x20F0); (0x2C7C, 0x2C7D);
    (0x2CEF, 0x2CF1); (0x2D6F, 0x2D6F); (0x2D7F, 0x2D7F); (0x2DE0, 0x2DFF); (0x2E2F, 0x2E2F);
    (0x3005, 0x3005); (0x302A, 0x302D); (0x3031, 0x3035); (0x303B, 0x303B); (0x3099, 0x309E);
    (0x30FC, 0x30FE); (0xA015, 0xA015); (0xA4F8, 0xA4FD); (0xA60C, 0xA60C); (0xA66F, 0xA672);
    (0xA674, 0xA67D); (0xA67F, 0xA67F); (0xA69C, 0xA69F); (0xA6F0, 0xA6F1); (0xA700, 0xA721);
    (0xA770, 0xA770); (0xA788, 0xA78A); (0xA7F2, 0xA7F4); (0xA7F8, 0xA7F9); (0xA802, 0xA802);
    (0xA806, 0xA806); (0xA80B, 0xA80B); (0xA825, 0xA826); (0xA82C, 0xA82C); (0xA8C4, 0xA8C5);
    (0xA8E0, 0xA8F1); (0xA8FF, 0xA8FF); (0xA926, 0xA92D); (0xA947, 0xA951); (0xA980, 0xA982);
    (0xA9B3, 0xA9B3); (0xA9B6, 0xA9B9); (0xA9BC, 0xA9BD); (0xA9CF, 0xA9CF); (0xA9E5, 0xA9E6);
    (0xAA29, 0xAA2E); (0xAA31, 0xAA32); (0xAA35, 0xAA36); (0xAA43, 0xAA43); (0xAA4C, 0xAA4C);
    (0xAA70, 0xAA70); (0xAA7C, 0xAA7C); (0xAAB0, 0xAAB0); (0xAAB2, 0xAAB4); (0xAAB7, 0xAAB8);
    (0xAABE, 0xAABF); (0xAAC1, 0xAAC1); (0xAADD, 0xAADD); (0xAAEC, 0xAAED); (0xAAF3, 0xAAF4);
    (0xAAF6, 0xAAF6); (0xAB5B, 0xAB5F); (0xAB69, 0xAB6B); (0xABE5, 0xABE5); (0xABE8, 0xABE8);
    (0xABED, 0xABED); (0xFB1E, 0xFB1E); (0xFBB2, 0xFBC2); (0xFE00, 0xFE0F); (0xFE13, 0xFE13);
    (0xFE20, 0xFE2F); (0xFE52, 0xFE52); (0xFE55, 0xFE55); (0xFEFF, 0xFEFF); (0xFF07, 0xFF07);
    (0xFF0E, 0xFF0E); (0xFF1A, 0xFF1A); (0xFF3E, 0xFF3E); (0xFF40, 0xFF40); (0xFF70, 0xFF70);
    (0xFF9E, 0xFF9F); (0xFFE3, 0xFFE3); (0xFFF9, 0xFFFB); (0x101FD, 0x101FD); (0x102E0, 0x102E0);
    (0x10376, 0x1037A); (0x10780, 0x10785); (0x10787, 0x107B0); (0x107B2, 0x107BA); (0x10A01, 0x10A03);
    (0x10A05, 0x10A06); (0x10A0C, 0x10A0F); (0x10A38, 0x10A3A); (0x10A3F, 0x10A3F); (0x10AE5, 0x10AE6);
    (0x10D24, 0x10D27); (0x10EAB, 0x10EAC); (0x10F46, 0x10F50); (0x10F82, 0x10F85); (0x11001, 0x11001);
    (0x11038, 0x11046); (0x11070, 0x11070); (0x11073, 0x11074); (0x1107F, 0x11081); (0x110B3, 0x110B6);
    (0x110B9, 0x110BA); (0x110BD, 0x110BD); (0x110C2, 0x110C2); (0x110CD, 0x110CD); (0x11100, 0x11102);
    (0x11127, 0x1112B); (0x1112D, 0x11134); (0x11173, 0x11173); (0x11180, 0x11181); (0x111B6, 0x111BE);
    (0x111C9, 0x111CC); (0x111CF, 0x111CF); (0x1122F, 0x11231); (0x11234, 0x11234); (0x11236, 0x11237);
    (0x1123E, 0x1123E); (0x112DF, 0x112DF); (0x112E3, 0x112EA); (0x11300, 0x11301); (0x1133B, 0x1133C);
    (0x11340, 0x11340); (0x11366, 0x1136C); (0x11370, 0x11374); (0x11438, 0x1143F); (0x11442, 0x11444);
    (0x11446, 0x11446); (0x1145E, 0x1145E); (0x114B3, 0x114B8); (0x114BA, 0x114BA); (0x114BF, 0x114C0);
    (0x114C2, 0x114C3); (0x115B2, 0x115B5); (0x115BC, 0x115BD); (0x115BF, 0x115C0); (0x115DC, 0x115DD);
    (0x11633, 0x1163A); (0x1163D, 0x1163D); (0x1163F, 0x11640); (0x116AB, 0x116AB); (0x116AD, 0x116AD);
    (0x116B0, 0x116B5); (0x116B7, 0x116B7); (0x1171D, 0x1171F); (0x11722, 0x11725); (0x11727, 0x1172B);
    (0x1182F, 0x11837); (0x11839, 0x1183A); (0x1193B, 0x1193C); (0x1193E, 0x1193E); (0x11943, 0x11943);
    (0x119D4, 0x119D7); (0x119DA, 0x119DB); (0x119E0, 0x119E0); (0x11A01, 0x11A0A); (0x11A33, 0x11A38);
    (0x11A3B, 0x11A3E); (0x11A47, 0x11A47); (0x11A51, 0x11A56); (0x11A59, 0x11A5B); (0x11A8A, 0x11A96);
    (0x11A98, 0x11A99); (0x11C30, 0x11C36); (0x11C38, 0x11C3D); (0x11C3F, 0x11C3F); (0x11C92, 0x11CA7);
    (0x11CAA, 0x11CB0); (0x11CB2, 0x11CB3); (0x11CB5, 0x11CB6); (0x11D31, 0x11D36); (0x11D3A, 0x11D3A);
    (0x11D3C, 0x11D3D); (0x11D3F, 0x11D45); (0x11D47, 0x11D47); (0x11D90, 0x11D91); (0x11D95, 0x11D95);
    (0x11D97, 0x11D97); (0x11EF3, 0x11EF4); (0x13430, 0x13438); (0x16AF0, 0x16AF4); (0x16B30, 0x16B36);
    (0x16B40, 0x16B43); (0x16F4F, 0x16F4F); (0x16F8F, 0x16F9F); (0x16FE0, 0x16FE1); (0x16FE3, 0x16FE4);
    (0x1AFF0, 0x1AFF3); (0x1AFF5, 0x1AFFB); (0x1AFFD, 0x1AFFE); (0x1BC9D, 0x1BC9E); (0x1BCA0, 0x1BCA3);
    (0x1CF00, 0x1CF2D); (0x1CF30, 0x1CF46); (0x1D167, 0x1D169); (0x1D173, 0x1D182); (0x1D185, 0x1D18B);
    (0x1D1AA, 0x1D1AD); (0x1D242, 0x1D244); (0x1DA00, 0x1DA36); (0x1DA3B, 0x1DA6C); (0x1DA75, 0x1DA75);
    (0x1DA84, 0x1DA84); (0x1DA9B, 0x1DA9F); (0x1DAA1, 0x1DAAF); (0x1E000, 0x1E006); (0x1E008, 0x1E018);
    (0x1E01B, 0x1E021); (0x1E023, 0x1E024); (0x1E026, 0x1E02A); (0x1E130, 0x1E13D); (0x1E2AE, 0x1E2AE);
    (0x1E2EC, 0x1E2EF); (0x1E8D0, 0x1E8D6); (0x1E944, 0x1E94B); (0x1F3FB, 0x1F3FF); (0xE0001, 0xE0001);
    (0xE0020, 0xE007F); (0xE0100, 0xE01EF)
  ]%N.


Definition in_ranges (cp : N) (ranges : list (N * N)) : bool :=
  existsb (fun r => (fst r <=? cp)%N && (cp <=? snd r)%N) ranges.

Definition is_cased (cp : N) : bool := in_ranges cp Cased.

Definition is_case_ignorable (cp : N) : bool := in_ranges cp Case_Ignorable.

(** The lowercase of one code point, by the simple mappings. *)
Fixpoint to_lower_in (rows : list (N * N * N * N)) (cp : N) : N :=
  match rows with
  | [] => cp
  | (first, last, step, target) :: rest =>
      if ((first <=? cp) && (cp <=? last) && ((cp - first) mod step =? 0))%N
      then (target + (cp - first))%N
      else to_lower_in rest cp
  end.

Definition to_lower (cp : N) : N := to_lower_in Lowercase_Mapping cp.

(** The full lowercase of one code point: the capital I with a dot is
    the one code point whose lowercase has two. *)
Definition to_lower_full (cp : N) : list N :=
  if (cp =? 304)%N then [105; 775]%N else [to_lower cp].

(** Whether what follows a capital sigma is, after any run of
    case-ignorable code points, a cased one. *)
Fixpoint cased_follows (rest : list Symbol) : bool :=
  match rest with
  | Char cp :: rest' =>
      if is_case_ignorable cp then cased_follows rest' else is_cased cp
  | _ => false
  end.

(** The lowering of a [str] that is not all ASCII.  [after_cased] tells
    whether, before any run of case-ignorable code points, a cased one
    precedes.  A capital sigma (U+03A3) becomes the final sigma (U+03C2)
    when a cased code point precedes it and none follows, and the small
    sigma (U+03C3) otherwise. *)
Fixpoint lower_from (after_cased : bool) (l : list Symbol) : list Symbol :=
  match l with
  | [] => []
  | Raw b :: rest => Raw b :: lower_from false rest
  | Char cp :: rest =>
      (if (cp =? 931)%N
       then [Char (if after_cased && negb (cased_follows rest)
                   then 962 else 963)%N]
       else map Char (to_lower_full cp))
      ++ lower_from (if is_case_ignorable cp then after_cased else is_cased cp)
                    rest
  end.

Fixpoint is_ascii (s : string) : bool :=
  match s with
  | EmptyString => true
  | String c rest => (byte c <? 128)%N && is_ascii rest
  end.

(** [s.lower()]: a [str] that is all ASCII is lowered character by
    character; any other goes through the Unicode database. *)
Definition lower (s : string) : string :=
  if is_ascii s then ascii_lower s
  else utf8_encode (lower_from false (utf8_decode s)).

(** [s.startswith(sub)]. *)
Fixpoint startswith (sub s : string) : bool :=
  match sub, s with
  | EmptyString, _ => true
  | String _ _, EmptyString => false
  | String a sub', String b s' => Ascii.eqb a b && startswith sub' s'
  end.

(** [sub in s]: [sub] occurs in [s] at some position. *)
Fixpoint py_in (sub s : string) : bool :=
  startswith sub s ||
  match s with
  | EmptyString => false
  | String _ s' => py_in sub s'
  end.

(** The test of the list comprehension of [render_inventory_view]. *)
Definition matches (term : string) (item : Item) : bool :=
  py_in term (lower (name item)) || py_in term (lower (category item)).

(** [filtered_inventory] of [render_inventory_view]. *)
Definition filtered_inventory (search_term : string) (inventory_data : list Item)
    : list Item :=
  if truthy_str search_term then
    let term := lower search_term in
    filter (matches term) inventory_data
  else inventory_data.

(** [int * float]: the int is converted. *)
Definition of_int (n : Z) : Qc := Q2Qc (inject_Z n).

(** [item['price'] * item['qty']]. *)
Definition item_value (item : Item) : Qc := (price item * of_int (qty item))%Qc.

Definition total_items (inventory_data : list Item) : Z :=
  py_sum (map qty inventory_data).

Definition total_value (inventory_data : list Item) : Qc :=
  py_fsum (map item_value inventory_data).

Definition low_stock_count (inventory_data : list Item) : Z :=
  Z.of_nat (List.length (filter (fun item => qty item <? 5) inventory_data)).

(** ** The analytics view *)

(** [sort_values(ascending=False)] of pandas with its default
    [kind='quicksort']: the rows come back rearranged with their keys in
    descending order.  pandas documents only [mergesort] and [stable] as
    stable, so the order of rows with equal keys is left to the
    implementation: the sort is a parameter of the analytics view, and
    [sorts_descending] is what is known of it. *)
Definition sorter : Type := forall A : Type, (A -> Qc) -> list A -> list A.

Definition sorts_descending (sort_values : sorter) : Prop :=
  forall (A : Type) (key : A -> Qc) (l : list A),
    Permutation l (sort_values A key l) /\
    StronglySorted (fun x y => (key y <= key x)%Qc) (sort_values A key l).

(** The group keys of [groupby] come out in ascending order
    ([sort=True]). *)
Fixpoint insert_key (k : string) (ks : list string) : list string :=
  match ks with
  | [] => [k]
  | k' :: rest =>
      if String.leb k k' then k :: ks else k' :: insert_key k rest
  end.

Definition sort_keys (ks : list string) : list string :=
  fold_right insert_key [] ks.

(** [df.groupby(key)[value].sum()] on rows [(key, value)]: one row per
    distinct key, holding the sum of the values of its group. *)
Definition group_sum (rows : list (string * Qc)) (k : string) : Qc :=
  py_fsum (map snd (filter (fun r => (fst r =? k)%string) rows)).

Definition groupby_sum (rows : list (string * Qc)) : list (string * Qc) :=
  map (fun k => (k, group_sum rows k))
      (sort_keys (nodup string_dec (map fst rows))).

(** [.head(n)]. *)
Definition head {A : Type} (n : nat) (l : list A) : list A := firstn n l.

Inductive Analytics : Type :=
| info (msg : string)
| charts (bars : list (string * Qc * Qc)) (top : list Item).

Section Analytics.
Variable sort_values : sorter.

(** [category_stats] of [render_analytics_view]. *)
Definition category_stats (inventory_data : list Item) : list (string * Qc) :=
  sort_values _ snd
    (groupby_sum (map (fun item => (category item, item_value item))
                      inventory_data)).

(** [(val / total_val) * 100 if total_val > 0 else 0]. *)
Definition percent (val total_val : Qc) : Qc :=
  if Qclt_le_dec 0 total_val then (val / total_val * of_int 100)%Qc
  else 0%Qc.

(** The bars of the value distribution chart: category, value, percent. *)
Definition category_chart (inventory_data : list Item)
    : list (string * Qc * Qc) :=
  let stats := category_stats inventory_data in
  let total_val := py_fsum (map snd stats) in
  map (fun cv => (fst cv, snd cv, percent (snd cv) total_val)) stats.

(** [sorted_items] of [render_analytics_view]. *)
Definition sorted_items (inventory_data : list Item) : list Item :=
  head 5 (sort_values _ price inventory_data).

(** [render_analytics_view]: nothing is computed for an empty
    inventory. *)
Definition render_analytics_view (inventory_data : list Item) : Analytics :=
  match inventory_data with
  | [] => info "No items in the vault to generate analytics."
  | _ => charts (category_chart inventory_data) (sorted_items inventory_data)
  end.
End Analytics.

(** A sort that sorts in descending order: the insertion sort that puts
    a row before the rows of equal key already placed. *)
Fixpoint insert_before {A : Type} (key : A -> Qc) (x : A) (l : list A) : list A :=
  match l with
  | [] => [x]
  | y :: rest =>
      if Qclt_le_dec (key x) (key y) then y :: insert_before key x rest
      else x :: l
  end.

Definition sort_keeping_ties : sorter :=
  fun A key l => fold_right (insert_before key) [] l.

(** ** Sample states *)

(** A first run: no file, nothing memoised, the built-in inventory in the
    session and the form open. *)
Definition first_run : World :=
  mkWorld DEFAULT_INVENTORY (Some true) (mkStorage None None).

(** A file whose text is valid JSON but holds no items. *)
Definition stray_document : json :=
  JObj [ ("id", JStr "one"); ("note", JNull) ].

(** The built-in inventory after a second headset of the price of item 4
    has been added through the form. *)
Definition restocked : list Item :=
  inventory (fst (add_item_form "Sony WH-1000XM4" "Accessory" (dec 34800 100) 3
                                true first_run)).

(** The memo agrees with the file: what is memoised is what the body of
    [load_data] would return now. *)
Definition coherent (s : Storage) : Prop :=
  forall v, cache s = Some v -> fst (load_data (load_data_clear s)) = Ok v.

(** [sub] occurs in [s]. *)
Definition occurs (sub s : string) : Prop :=
  exists pre post : string, s = (pre ++ sub ++ post)%string.

(** The capital and the small letters of ASCII, pair by pair. *)
Definition letter_pairs : list (ascii * ascii) :=
  combine (list_ascii_of_string "ABCDEFGHIJKLMNOPQRSTUVWXYZ")
          (list_ascii_of_string "abcdefghijklmnopqrstuvwxyz").

(** Two characters that are equal or the capital and the small form of
    one letter. *)
Definition same_letter (a b : ascii) : Prop :=
  a = b \/ In (a, b) letter_pairs \/ In (b, a) letter_pairs.

(** Two strings that are equal up to the case of their letters. *)
Fixpoint eq_up_to_case (s t : string) : Prop :=
  match s, t with
  | EmptyString, EmptyString => True
  | String a s', String b t' => same_letter a b /\ eq_up_to_case s' t'
  | _, _ => False
  end.

(** [s] contains [term] up to the case of letters: some stretch of [s]
    equals [term] up to case. *)
Definition contains_up_to_case (term s : string) : Prop :=
  exists sub : string, occurs sub s /\ eq_up_to_case sub term.


(** ** The rest of the application *)

(** [CATEGORY_ICONS]. *)
Definition CATEGORY_ICONS : list (string * string) :=
  [ ("GPU", "🧠"); ("CPU", "💻"); ("Mobile", "📱");
    ("Laptop", "🖥️"); ("Accessory", "🎧"); ("Other", "📦") ].

(** [d.get(key, default)]. *)
Fixpoint dict_get (d : list (string * string)) (key default : string) : string :=
  match d with
  | [] => default
  | (k, v) :: rest => if (k =? key)%string then v else dict_get rest key default
  end.

(** The keys ['inventory'] and ['current_view'] of [st.session_state] at
    the start of a run, each of which may be absent; the inventory is
    whatever [load_data] returned. *)
Record Session : Type := mkSession {
  session_inventory : option json;
  current_view : option string
}.

(** [initialize_session_state()]: [None] when it returns, the exception
    when [load_data] raises (the session is then as it was). *)
Definition initialize_session_state (ss : Session) (s : Storage)
    : option exn * Session * Storage :=
  let view :=
    match current_view ss with
    | Some v => Some v
    | None => Some "Inventory"
    end in
  match session_inventory ss with
  | Some v => (None, mkSession (Some v) view, s)
  | None =>
      match load_data s with
      | (Ok v, s') => (None, mkSession (Some v) view, s')
      | (Raise e, s') => (Some e, ss, s')
      end
  end.

(** The [ADD ITEM] button of [render_inventory_view], pressed. *)
Definition press_add_item (w : World) : World :=
  mkWorld (inventory w) (Some true) (storage w).

(** One card of the inventory grid: the column [i % 3] it is put in, its
    icon, its stock class and the item it shows. *)
Record Card : Type := mkCard {
  col : nat;
  icon : string;
  stock_class : string;
  card_item : Item
}.

(** The loop [for i, item in enumerate(filtered_inventory)], from index
    [i] on. *)
Fixpoint cards_from (i : nat) (filtered : list Item) : list Card :=
  match filtered with
  | [] => []
  | it :: rest =>
      mkCard (i mod 3)
             (dict_get CATEGORY_ICONS (category it) "📦")
             (if qty it <? 5 then "low-stock" else "")
             it
      :: cards_from (S i) rest
  end.

Inductive Grid : Type :=
| no_items (msg : string)
| cards (cs : list Card).

(** The inventory grid of [render_inventory_view]. *)
Definition inventory_grid (filtered : list Item) : Grid :=
  match filtered with
  | [] => no_items
            "No items found matching the search criteria or the vault is empty."
  | _ => cards (cards_from 0 filtered)
  end.

(** The [DELETE] buttons of the grid: [pressed item_id] is the state of
    the button with the key [delete_<item_id>].  The first pressed one
    runs [delete_item], and [st.rerun()] ends the run. *)
Fixpoint press_delete (pressed : Z -> bool) (filtered : list Item) (w : World)
    : World * list Notice :=
  match filtered with
  | [] => (w, [])
  | it :: rest =>
      if pressed (id it) then delete_item (id it) w
      else press_delete pressed rest w
  end.

(** [export_data()]: the data of the download button,
    [json.dumps(inventory, indent=4)]. *)
Definition export_data (w : World) : FileText :=
  Encodes (inventory_json (inventory w)).

Inductive SettingsOutput : Type :=
| download_button (data : FileText)
| warning (msg : string)
| notice (n : Notice).

(** [render_settings_view] for the states of its three buttons. *)
Definition render_settings_view (export purge confirm : bool) (w : World)
    : World * list SettingsOutput :=
  let exported := if export then [download_button (export_data w)] else [] in
  if purge then
    let warned :=
      (exported ++
       [warning ("Are you sure you want to PERMANENTLY delete ALL inventory data? "
                 ++ "This cannot be undone.")%string])%list in
    if confirm then
      (clear_data w,
       (warned ++ [notice (success "System Purged. Memory cleared.")])%list)
    else (w, warned)
  else (w, exported).

(** ** Runs of the application *)

(** What one interaction does to the world: the [ADD ITEM] button, a run
    of [add_item_form] on values within the bounds of its widgets, a
    [DELETE] button, a confirmed purge, and a new session that takes its
    inventory from [load_data]. *)
Inductive step : World -> World -> Prop :=
| step_open (w : World) :
    step w (press_add_item w)
| step_submit (nm cat : string) (p : Qc) (q : Z) (submitted : bool) (w : World) :
    widget_range cat p q ->
    step w (fst (add_item_form nm cat p q submitted w))
| step_delete (item_id : Z) (w : World) :
    step w (fst (delete_item item_id w))
| step_purge (w : World) :
    step w (clear_data w)
| step_session (inv : list Item) (w : World) :
    fst (load_data (storage w)) = Ok (inventory_json inv) ->
    step w (mkWorld inv None (snd (load_data (storage w)))).

(** The worlds a fresh installation can get to: from the first session,
    which has no file and finds the built-in inventory. *)
Definition first_session : World :=
  mkWorld DEFAULT_INVENTORY None (snd (load_data (mkStorage None None))).

Inductive reachable : World -> Prop :=
| reachable_start :
    reachable first_session
| reachable_step (w w' : World) :
    reachable w -> step w w' -> reachable w'.

(** The first session after a headset has been added through the form. *)
Definition busy_session : World :=
  fst (add_item_form "Sony WH-1000XM4" "Accessory" (dec 34800 100) 3 true
                     (press_add_item first_session)).

(** An item as the form makes it: a non-empty name, a category of the
    select box, a price of at least 0.01, a quantity of at least 1, and a
    positive id. *)
Definition well_formed (it : Item) : Prop :=
  name it <> "" /\ In (category it) CATEGORY_ICONS_keys /\
  (dec 1 100 <= price it)%Qc /\ 1 <= qty it /\ 1 <= id it.

(** The session and the storage agree: [load_data] would return the
    inventory of the session. *)
Definition in_sync (w : World) : Prop :=
  fst (load_data (storage w)) = Ok (inventory_json (inventory w)).

(** What every run keeps: unique ids, items as the form makes them, a
    session that agrees with the storage, and the built-in inventory as
    long as there is no file. *)
Definition run_invariant (w : World) : Prop :=
  NoDup (map id (inventory w)) /\
  Forall well_formed (inventory w) /\
  in_sync w /\
  (disk (storage w) = None -> inventory w = DEFAULT_INVENTORY).

(** * Properties *)

(** ** Identifiers *)

Lemma py_max_ge_init (xs : list Z) (x : Z) : x <= py_max x xs.
Proof.
  unfold py_max. revert x.
  induction xs as [|y ys IH]; intros x; simpl.
  - lia.
  - specialize (IH (Z.max x y)). lia.
Qed.

Lemma py_max_ge_elem (xs : list Z) (x y : Z) : In y xs -> y <= py_max x xs.
Proof.
  unfold py_max. revert x.
  induction xs as [|z zs IH]; intros x Hin; simpl in *.
  - contradiction.
  - destruct Hin as [-> | Hin].
    + pose proof (py_max_ge_init zs (Z.max x y)) as H.
      unfold py_max in H. lia.
    + now apply IH.
Qed.

Lemma py_max_attained (xs : list Z) (x : Z) :
  py_max x xs = x \/ In (py_max x xs) xs.
Proof.
  unfold py_max. revert x.
  induction xs as [|z zs IH]; intros x; simpl.
  - now left.
  - destruct (IH (Z.max x z)) as [H | H].
    + rewrite H. destruct (Z.max_spec x z) as [[_ ->] | [_ ->]]; auto.
    + auto.
Qed.

(** The new id lies above every id of the inventory. *)
Lemma new_id_above (inv : list Item) (it : Item) :
  In it inv -> id it < new_id inv.
Proof.
  destruct inv as [|hd rest]; simpl; [contradiction|].
  intros [<- | Hin].
  - pose proof (py_max_ge_init (map id rest) (id hd)). lia.
  - pose proof (py_max_ge_elem (map id rest) (id hd) (id it)
                               (in_map id _ _ Hin)).
    lia.
Qed.

(** On a non-empty inventory the new id is the successor of one of its
    ids. *)
Lemma new_id_succ (inv : list Item) :
  inv <> [] -> exists it, In it inv /\ new_id inv = id it + 1.
Proof.
  destruct inv as [|hd rest]; [congruence|]. intros _. simpl.
  destruct (py_max_attained (map id rest) (id hd)) as [H | H].
  - exists hd. rewrite H. auto.
  - apply in_map_iff in H. destruct H as (it & Hid & Hin).
    exists it. rewrite Hid. auto.
Qed.

Lemma new_id_fresh (inv : list Item) : ~ In (new_id inv) (map id inv).
Proof.
  intros H. apply in_map_iff in H. destruct H as (it & Hid & Hin).
  apply new_id_above in Hin. lia.
Qed.

Lemma truthy_str_true (s : string) : s <> "" -> truthy_str s = true.
Proof. destruct s; [congruence | reflexivity]. Qed.

Lemma truthy_float_true (x : Qc) : x <> 0%Qc -> truthy_float x = true.
Proof. unfold truthy_float. destruct (Qc_eq_dec x 0); [congruence | reflexivity]. Qed.

Lemma truthy_int_true (n : Z) : n <> 0 -> truthy_int n = true.
Proof. unfold truthy_int. intros H. apply Z.eqb_neq in H. now rewrite H. Qed.

(** A valid request passes the test of [add_item_form]. *)
Lemma valid_is_truthy (nm : string) (p : Qc) (q : Z) :
  nm <> "" -> (0 < p)%Qc -> 1 <= q ->
  truthy_str nm && truthy_float p && truthy_int q = true.
Proof.
  intros Hn Hp Hq.
  rewrite truthy_str_true, truthy_float_true, truthy_int_true; auto; try lia.
  intros ->. now apply Qclt_not_eq in Hp.
Qed.

(** What a submitted valid request does to the world. *)
Lemma add_item_form_added (nm cat : string) (p : Qc) (q : Z) (w : World) :
  show_modal w = Some true ->
  nm <> "" -> (0 < p)%Qc -> 1 <= q ->
  add_item_form nm cat p q true w =
    (let inv := mkItem (new_id (inventory w)) nm cat p q :: inventory w in
     (mkWorld inv (Some false) (save_data (inventory_json inv) (storage w)),
      [success ("Added " ++ nm ++ " to the vault!")%string])).
Proof.
  intros Hm Hn Hp Hq. unfold add_item_form.
  now rewrite Hm, valid_is_truthy.
Qed.

(** The inventory after [add_item_form]: the old one, or the old one
    with one item of the new id in front. *)
Lemma add_item_form_inventory (nm cat : string) (p : Qc) (q : Z)
    (submitted : bool) (w : World) :
  inventory (fst (add_item_form nm cat p q submitted w)) = inventory w \/
  inventory (fst (add_item_form nm cat p q submitted w)) =
    mkItem (new_id (inventory w)) nm cat p q :: inventory w.
Proof.
  unfold add_item_form.
  destruct (show_modal w) as [[|]|]; auto.
  destruct submitted; auto.
  destruct (truthy_str nm && truthy_float p && truthy_int q); auto.
Qed.

Lemma NoDup_map_filter {A B : Type} (f : A -> B) (keep : A -> bool) (l : list A) :
  NoDup (map f l) -> NoDup (map f (filter keep l)).
Proof.
  induction l as [|x xs IH]; simpl; intros H; [constructor|].
  inversion H as [|? ? Hnot Hrest]; subst.
  destruct (keep x); simpl; auto.
  constructor; auto.
  intros Hin. apply Hnot.
  apply in_map_iff in Hin. destruct Hin as (y & Hy & Hin).
  apply filter_In in Hin. apply in_map_iff. exists y. tauto.
Qed.

(** ** Adding, deleting, clearing *)

(** C1. A submitted request with a non-empty name, a price above 0 and a
    quantity of at least 1 puts one new item in front of the inventory
    and leaves the rest as it was, so the inventory grows by exactly one;
    the item carries the submitted fields; its id is 1 on an empty
    inventory and otherwise the largest id of the inventory plus 1; the
    new inventory is what is written to the file. *)
Theorem add_item_form_valid (nm cat : string) (p : Qc) (q : Z) (w : World) :
  show_modal w = Some true ->
  nm <> "" -> (0 < p)%Qc -> 1 <= q ->
  exists new_item : Item,
    let w' := fst (add_item_form nm cat p q true w) in
    inventory w' = new_item :: inventory w /\
    List.length (inventory w') = S (List.length (inventory w)) /\
    (name new_item, category new_item, price new_item, qty new_item)
      = (nm, cat, p, q) /\
    (inventory w = [] -> id new_item = 1) /\
    (inventory w <> [] ->
       (forall it, In it (inventory w) -> id it <= id new_item - 1) /\
       (exists it, In it (inventory w) /\ id it = id new_item - 1)) /\
    disk (storage w') = Some (Encodes (inventory_json (inventory w'))).
Proof.
  intros Hm Hn Hp Hq.
  exists (mkItem (new_id (inventory w)) nm cat p q).
  rewrite add_item_form_added by assumption. simpl.
  repeat split.
  - intros ->. reflexivity.
  - intros it Hin. apply new_id_above in Hin. lia.
  - destruct (new_id_succ (inventory w) H) as (it & Hin & Heq).
    exists it. split; [assumption | lia].
Qed.

(** C3. Unique ids stay unique: whatever [add_item_form] is given,
    whichever id [delete_item] is given, and after [clear_data]. *)
Theorem unique_ids_preserved (w : World) :
  NoDup (map id (inventory w)) ->
  (forall nm cat p q submitted,
     NoDup (map id (inventory (fst (add_item_form nm cat p q submitted w))))) /\
  (forall item_id, NoDup (map id (inventory (fst (delete_item item_id w))))) /\
  NoDup (map id (inventory (clear_data w))).
Proof.
  intros Huniq. repeat split.
  - intros nm cat p q submitted.
    destruct (add_item_form_inventory nm cat p q submitted w) as [-> | ->];
      [assumption|].
    simpl. constructor; [apply new_id_fresh | assumption].
  - intros item_id. simpl. now apply NoDup_map_filter.
  - simpl. constructor.
Qed.

(** C4, as the code has it.  After [delete_item] and a valid
    [add_item_form] the new item's id differs from every id left in the
    inventory, and it lies above the deleted id whenever an item with an
    id at or above the deleted one is left.  (When the item with the
    largest id is deleted, the next item may get that id again.) *)
Theorem delete_then_add_id (item_id : Z) (nm cat : string) (p : Qc) (q : Z)
    (w : World) :
  show_modal w = Some true ->
  nm <> "" -> (0 < p)%Qc -> 1 <= q ->
  let w1 := fst (delete_item item_id w) in
  let w2 := fst (add_item_form nm cat p q true w1) in
  exists new_item : Item,
    inventory w2 = new_item :: inventory w1 /\
    (forall it, In it (inventory w1) -> id it <> id new_item) /\
    ((exists it, In it (inventory w1) /\ item_id <= id it) ->
       item_id < id new_item).
Proof.
  intros Hm Hn Hp Hq w1 w2.
  exists (mkItem (new_id (inventory w1)) nm cat p q).
  subst w2. rewrite add_item_form_added by assumption. simpl.
  repeat split.
  - intros it Hin. apply new_id_above in Hin. simpl in Hin. lia.
  - intros (it & Hin & Hle). apply new_id_above in Hin. simpl in Hin. lia.
Qed.

(** C6, as the code has it.  A submitted request with an empty name, a
    price equal to 0 or a quantity equal to 0 is answered by the one
    notice "Please fill out all fields." and changes nothing: not the
    inventory, not the modal flag, not the file, not the memo.  Every
    other submitted request is carried out; with the bounds of the
    form's widgets that is every request with a non-empty name. *)
Theorem add_item_form_refusal (nm cat : string) (p : Qc) (q : Z) (w : World) :
  show_modal w = Some true ->
  (nm = "" \/ p = 0%Qc \/ q = 0 ->
     add_item_form nm cat p q true w =
       (w, [error "Please fill out all fields."])) /\
  (nm <> "" /\ p <> 0%Qc /\ q <> 0 ->
     inventory (fst (add_item_form nm cat p q true w)) =
       mkItem (new_id (inventory w)) nm cat p q :: inventory w) /\
  (widget_range cat p q ->
     (fst (add_item_form nm cat p q true w) = w <-> nm = "")).
Proof.
  intros Hm. unfold add_item_form. rewrite Hm.
  split; [|split; [|intros (_ & Hp & Hq); split]].
  - intros [-> | [-> | ->]]; simpl; try reflexivity.
    + now rewrite andb_false_r.
    + now rewrite andb_false_r.
  - intros (Hn & Hp & Hq).
    now rewrite truthy_str_true, truthy_float_true, truthy_int_true.
  - destruct nm as [|c s]; [reflexivity|]. intros Heq.
    rewrite truthy_float_true, truthy_int_true in Heq; try lia.
    + simpl in Heq. apply (f_equal show_modal) in Heq.
      simpl in Heq. rewrite Hm in Heq. discriminate.
    + intros ->. revert Hp. now vm_compute.
  - intros ->. reflexivity.
Qed.

Lemma add_item_form_valid_witness :
  exists new_item : Item,
    inventory (fst (add_item_form "RTX 5090" "GPU" (dec 199999 100) 2 true
                                  first_run))
      = new_item :: DEFAULT_INVENTORY /\
    id new_item = 5.
Proof.
  destruct (add_item_form_valid "RTX 5090" "GPU" (dec 199999 100) 2 first_run)
    as (new_item & Hinv & _ & _ & _ & Hmax & _);
    [reflexivity | discriminate | reflexivity | lia |].
  exists new_item. split; [exact Hinv|].
  destruct Hmax as [Hub (it & Hin & Heq)]; [discriminate|].
  assert (Hge : 4 <= id new_item - 1)
    by (apply (Hub (mkItem 4 "Sony WH-1000XM5" "Accessory" (dec 34800 100) 25));
        simpl; auto).
  simpl in Hin.
  destruct Hin as [<- | [<- | [<- | [<- | []]]]]; simpl in Heq; lia.
Defined.

Lemma unique_ids_preserved_witness :
  NoDup (map id (inventory (fst (delete_item 2 first_run)))).
Proof.
  apply (unique_ids_preserved first_run).
  simpl. repeat (constructor; [simpl; intuition discriminate|]). constructor.
Defined.

(** C4 fails when the item with the largest id is deleted: deleting item
    4 of the built-in inventory and adding an item gives the new item the
    id 4 again. *)
Lemma deleted_id_is_reused :
  In 4 (map id (inventory first_run)) /\
  map id (inventory (fst (add_item_form "Pixel 9" "Mobile" (dec 79900 100) 1 true
                                        (fst (delete_item 4 first_run)))))
    = [4; 1; 2; 3].
Proof. split; [simpl; tauto | reflexivity]. Qed.

Lemma delete_then_add_id_witness :
  exists new_item : Item,
    inventory (fst (add_item_form "Pixel 9" "Mobile" (dec 79900 100) 1 true
                                  (fst (delete_item 2 first_run))))
      = new_item :: inventory (fst (delete_item 2 first_run)) /\
    2 < id new_item.
Proof.
  destruct (delete_then_add_id 2 "Pixel 9" "Mobile" (dec 79900 100) 1 first_run)
    as (new_item & Hinv & _ & Habove);
    [reflexivity | discriminate | reflexivity | lia |].
  exists new_item. split; [exact Hinv|].
  apply Habove.
  exists (mkItem 3 "Samsung S24 Ultra" "Mobile" (dec 119950 100) 12).
  split; [simpl; auto | simpl; lia].
Defined.

(** C6 fails on a request whose price is not above 0: the test of
    [add_item_form] is truthiness, so a price of -1 passes it and the
    item is added.  And the refusal names no field: an empty name and a
    quantity of 0 get the same fixed notice. *)
Lemma negative_price_is_added :
  ~ (0 < dec (-1) 1)%Qc /\
  add_item_form "Cable" "Other" (dec (-1) 1) 1 true first_run =
    (mkWorld (mkItem 5 "Cable" "Other" (dec (-1) 1) 1 :: DEFAULT_INVENTORY)
             (Some false)
             (mkStorage
                (Some (Encodes (inventory_json
                   (mkItem 5 "Cable" "Other" (dec (-1) 1) 1 :: DEFAULT_INVENTORY))))
                None),
     [success "Added Cable to the vault!"]) /\
  snd (add_item_form "" "Other" (dec 999 100) 1 true first_run)
    = [error "Please fill out all fields."] /\
  snd (add_item_form "Cable" "Other" (dec 999 100) 0 true first_run)
    = [error "Please fill out all fields."].
Proof.
  split; [|split; [|split]].
  - now vm_compute.
  - reflexivity.
  - reflexivity.
  - reflexivity.
Qed.

Lemma add_item_form_refusal_witness :
  add_item_form "" "GPU" (dec 199999 100) 2 true first_run =
    (first_run, [error "Please fill out all fields."]).
Proof.
  apply (add_item_form_refusal "" "GPU" (dec 199999 100) 2 first_run);
    [reflexivity | now left].
Defined.

(** ** Persistence *)

Lemma as_item_item_json (it : Item) : as_item (item_json it) = Some it.
Proof. destruct it. reflexivity. Qed.

(** An inventory can be read back from its document. *)
Lemma as_inventory_inventory_json (inv : list Item) :
  as_inventory (inventory_json inv) = Some inv.
Proof.
  unfold inventory_json, as_inventory.
  induction inv as [|it rest IH]; [reflexivity|].
  cbn [map as_items]. now rewrite as_item_item_json, IH.
Qed.

Lemma load_after_save (data : json) (s : Storage) :
  load_data (save_data data s) =
    (Ok data, mkStorage (Some (Encodes data)) (Some data)).
Proof. reflexivity. Qed.

Lemma coherent_cold (d : option FileText) : coherent (mkStorage d None).
Proof. intros v H. discriminate. Qed.

Lemma coherent_save_data (data : json) (s : Storage) :
  coherent (save_data data s).
Proof. apply coherent_cold. Qed.

(** Every mutating operation leaves a memo that agrees with the file. *)
Lemma coherent_after_operations (w : World) :
  (forall nm cat p q,
     show_modal w = Some true -> nm <> "" -> p <> 0%Qc -> q <> 0 ->
     coherent (storage (fst (add_item_form nm cat p q true w)))) /\
  (forall item_id, coherent (storage (fst (delete_item item_id w)))) /\
  coherent (storage (clear_data w)).
Proof.
  split; [|split].
  - intros nm cat p q Hm Hn Hp Hq. unfold add_item_form.
    rewrite Hm, truthy_str_true, truthy_float_true, truthy_int_true
      by assumption.
    apply coherent_cold.
  - intros item_id. apply coherent_cold.
  - apply coherent_cold.
Qed.

Lemma coherent_load_data (s : Storage) :
  coherent s -> coherent (snd (load_data s)).
Proof.
  intros Hs. unfold load_data.
  destruct s as [d [v|]]; simpl; [exact Hs|].
  destruct d as [[|doc]|]; simpl.
  - apply coherent_cold.
  - intros v H. inversion H; subst. reflexivity.
  - intros v H. inversion H; subst. reflexivity.
Qed.

(** C2. Whatever the file and the memo held before, [save_data] of an
    inventory followed by [load_data] succeeds and returns the document
    of that inventory, from which the same items are read back: the same
    list, in the same order, with the same fields. *)
Theorem save_then_load (X : list Item) (s : Storage) :
  exists doc : json,
    fst (load_data (save_data (inventory_json X) s)) = Ok doc /\
    doc = inventory_json X /\
    as_inventory doc = Some X.
Proof.
  exists (inventory_json X). rewrite load_after_save.
  repeat split. apply as_inventory_inventory_json.
Qed.

(** C5, as the code has it.  With a memo that agrees with the file,
    [load_data] returns the document of the file when the file exists and
    its text is JSON, of whatever shape; it raises the decoder's error
    when the text is not JSON; it returns the four built-in items when
    there is no file.  After [clear_data] it returns the empty list. *)
Theorem load_data_cases (s : Storage) :
  coherent s ->
  (forall doc, disk s = Some (Encodes doc) -> fst (load_data s) = Ok doc) /\
  (disk s = Some Malformed -> fst (load_data s) = Raise JSONDecodeError) /\
  (disk s = None ->
     fst (load_data s) = Ok (inventory_json DEFAULT_INVENTORY) /\
     List.length DEFAULT_INVENTORY = 4%nat) /\
  (forall w : World,
     fst (load_data (storage (clear_data w))) = Ok (inventory_json [])).
Proof.
  intros Hs. unfold coherent in Hs.
  split; [|split; [|split]]; try (intros w; reflexivity).
  - intros doc Hd. destruct s as [d [v|]]; simpl in *; subst d.
    + specialize (Hs v eq_refl). unfold load_data in *. simpl in *. congruence.
    + reflexivity.
  - intros Hd. destruct s as [d [v|]]; simpl in *; subst d.
    + specialize (Hs v eq_refl). discriminate.
    + reflexivity.
  - intros Hd. split; [|reflexivity].
    destruct s as [d [v|]]; simpl in *; subst d.
    + specialize (Hs v eq_refl). unfold load_data in *. simpl in *. congruence.
    + reflexivity.
Qed.

Lemma load_data_cases_witness :
  fst (load_data (storage first_run)) = Ok (inventory_json DEFAULT_INVENTORY).
Proof.
  apply (load_data_cases (storage first_run)); [apply coherent_cold | reflexivity].
Defined.

(** C5 fails on a file that is JSON of another shape: [load_data]
    returns the document and raises nothing, though the document is not a
    list of items. *)
Lemma stray_document_is_loaded :
  as_inventory stray_document = None /\
  as_inventory (JArr [stray_document]) = None /\
  fst (load_data (mkStorage (Some (Encodes stray_document)) None))
    = Ok stray_document /\
  fst (load_data (mkStorage (Some (Encodes (JArr [stray_document]))) None))
    = Ok (JArr [stray_document]).
Proof. repeat split. Qed.

(** ** Statistics *)

Lemma fold_left_Zadd (xs : list Z) (a : Z) :
  fold_left Z.add xs a = a + fold_left Z.add xs 0.
Proof.
  revert a. induction xs as [|x rest IH]; intros a; simpl; [lia|].
  rewrite (IH (a + x)), (IH x). lia.
Qed.

Lemma fold_left_Qcplus (xs : list Qc) (a : Qc) :
  fold_left Qcplus xs a = (a + fold_left Qcplus xs 0)%Qc.
Proof.
  revert a. induction xs as [|x rest IH]; intros a; simpl; [ring|].
  rewrite (IH (a + x)%Qc), (IH (0 + x)%Qc). ring.
Qed.

Lemma py_sum_cons (x : Z) (xs : list Z) : py_sum (x :: xs) = x + py_sum xs.
Proof. unfold py_sum. simpl. apply fold_left_Zadd. Qed.

Lemma py_fsum_cons (x : Qc) (xs : list Qc) :
  py_fsum (x :: xs) = (x + py_fsum xs)%Qc.
Proof.
  unfold py_fsum. simpl. rewrite fold_left_Qcplus. ring.
Qed.

(** C7. The three statistics of the inventory view are functions of the
    inventory alone.  Total items is the quantities added up.  The
    inventory value is the products price x quantity added up one after
    the other in the order of the inventory, starting from 0, as [sum]
    does: each further item adds its product to the sum so far.  No law
    of the addition of prices is used, so this reads the same for the
    floats of the source.  The low stock alerts count the items whose
    quantity is below 5.  On the empty inventory the three are 0, 0
    and 0. *)
Theorem summary_of_inventory (inventory_data : list Item) :
  total_items inventory_data
    = fold_right (fun item acc => qty item + acc) 0 inventory_data /\
  (forall item,
     total_value (inventory_data ++ [item])
       = (total_value inventory_data
          + price item * Q2Qc (inject_Z (qty item)))%Qc) /\
  low_stock_count inventory_data
    = fold_right (fun item acc => if qty item <? 5 then acc + 1 else acc)
                 0 inventory_data /\
  (total_items [], total_value [], low_stock_count []) = (0, 0%Qc, 0).
Proof.
  split; [|split; [|split]].
  - unfold total_items.
    induction inventory_data as [|it rest IH]; [reflexivity|].
    cbn [map fold_right]. now rewrite py_sum_cons, IH.
  - intros item. unfold total_value, py_fsum.
    now rewrite map_app, fold_left_app.
  - unfold low_stock_count.
    induction inventory_data as [|it rest IH]; [reflexivity|].
    cbn [filter fold_right]. rewrite <- IH.
    destruct (qty it <? 5); cbn [List.length]; lia.
  - reflexivity.
Qed.

(** ** Search *)

Lemma startswith_spec (sub s : string) :
  startswith sub s = true <-> exists post, s = (sub ++ post)%string.
Proof.
  revert s. induction sub as [|a sub' IH]; intros s; simpl.
  - split; [intros _; now exists s | reflexivity].
  - destruct s as [|b s'].
    + split; [discriminate | intros (post & H); discriminate].
    + rewrite andb_true_iff, Ascii.eqb_eq, IH. split.
      * intros (-> & post & ->). now exists post.
      * intros (post & H). inversion H; subst. split; [reflexivity | now exists post].
Qed.

Lemma py_in_spec (sub s : string) :
  py_in sub s = true <->
  exists pre post, s = (pre ++ sub ++ post)%string.
Proof.
  induction s as [|c s' IH]; simpl; rewrite orb_true_iff, startswith_spec.
  - split.
    + intros [(post & H) | H]; [|discriminate]. now exists "", post.
    + intros (pre & post & H). left.
      destruct pre; [now exists post | discriminate].
  - rewrite IH. split.
    + intros [(post & H) | (pre & post & ->)].
      * now exists "", post.
      * now exists (String c pre), post.
    + intros (pre & post & H). destruct pre as [|d pre'].
      * left. now exists post.
      * right. simpl in H. inversion H; subst. now exists pre', post.
Qed.

Lemma ascii_lower_app (a b : string) :
  ascii_lower (a ++ b) = (ascii_lower a ++ ascii_lower b)%string.
Proof. induction a as [|c a' IH]; simpl; congruence. Qed.

Lemma ascii_lower_app_inv (s a b : string) :
  ascii_lower s = (a ++ b)%string ->
  exists s1 s2, s = (s1 ++ s2)%string /\ ascii_lower s1 = a /\ ascii_lower s2 = b.
Proof.
  revert s. induction a as [|c a' IH]; intros s H.
  - now exists "", s.
  - destruct s as [|d s']; [discriminate|].
    simpl in H. inversion H as [[Hc Hrest]].
    destruct (IH s' Hrest) as (s1 & s2 & -> & H1 & H2).
    exists (String d s1), s2. simpl. rewrite H1. auto.
Qed.

(** A capital of a pair lowers to its small letter, which stays. *)
Lemma lower_char_pair (a b : ascii) :
  In (a, b) letter_pairs ->
  lower_char a = b /\ lower_char b = b /\
  a = ascii_of_nat (nat_of_ascii b - 32) /\ (byte a <? 128)%N = true /\
  (byte b <? 128)%N = true.
Proof.
  unfold letter_pairs. cbn [list_ascii_of_string combine In].
  intros H.
  repeat (destruct H as [H | H];
          [inversion H; subst; repeat split; reflexivity|]).
  contradiction.
Qed.

(** Every other character stays as it is. *)
Lemma lower_char_cases (a : ascii) :
  lower_char a = a \/ In (a, lower_char a) letter_pairs.
Proof.
  destruct a as [[] [] [] [] [] [] [] []];
    first [left; reflexivity
          | right; vm_compute; repeat first [left; reflexivity | right]].
Qed.

(** [lower_char] identifies exactly the characters that are the same
    letter. *)
Lemma same_letter_lower (a b : ascii) :
  same_letter a b <-> lower_char a = lower_char b.
Proof.
  split.
  - intros [-> | [H | H]]; [reflexivity | |];
      apply lower_char_pair in H; destruct H as (H1 & H2 & _); congruence.
  - intros Heq. unfold same_letter.
    destruct (lower_char_cases a) as [Ha | Ha],
             (lower_char_cases b) as [Hb | Hb].
    + left. congruence.
    + right. right. rewrite <- Heq, Ha in Hb. exact Hb.
    + right. left. rewrite Heq, Hb in Ha. exact Ha.
    + left. rewrite Heq in Ha.
      apply lower_char_pair in Ha. apply lower_char_pair in Hb.
      destruct Ha as (_ & _ & Ea & _), Hb as (_ & _ & Eb & _). congruence.
Qed.

Lemma eq_up_to_case_lower (s t : string) :
  eq_up_to_case s t <-> ascii_lower s = ascii_lower t.
Proof.
  revert t. induction s as [|a s' IH]; intros [|b t']; simpl.
  - tauto.
  - split; [contradiction | discriminate].
  - split; [contradiction | discriminate].
  - rewrite same_letter_lower, IH. split.
    + intros [-> ->]. reflexivity.
    + intros H. inversion H. auto.
Qed.

Lemma same_letter_ascii (a b : ascii) :
  same_letter a b -> (byte a <? 128)%N = true -> (byte b <? 128)%N = true.
Proof.
  intros [-> | [H | H]] Ha; [exact Ha | |];
    apply lower_char_pair in H; tauto.
Qed.

Lemma eq_up_to_case_ascii (s t : string) :
  eq_up_to_case s t -> is_ascii s = true -> is_ascii t = true.
Proof.
  revert t. induction s as [|a s' IH]; intros [|b t']; simpl; try tauto.
  intros [Hab Hrest]. rewrite !andb_true_iff. intros [Ha Hs].
  split; [now apply (same_letter_ascii a b) | now apply IH].
Qed.

(** On text that is all ASCII [lower] is the lowering of its letters. *)
Lemma lower_of_ascii (s : string) : is_ascii s = true -> lower s = ascii_lower s.
Proof. intros H. unfold lower. now rewrite H. Qed.

(** For lowered ASCII the test of the search is containment up to
    case. *)
Lemma py_in_ascii_lower (term s : string) :
  py_in (ascii_lower term) (ascii_lower s) = true <-> contains_up_to_case term s.
Proof.
  rewrite py_in_spec. unfold contains_up_to_case, occurs. split.
  - intros (pre & post & H).
    apply ascii_lower_app_inv in H. destruct H as (s1 & s23 & -> & _ & H).
    apply ascii_lower_app_inv in H. destruct H as (s2 & s3 & -> & H2 & _).
    exists s2. split; [now exists s1, s3 | now apply eq_up_to_case_lower].
  - intros (sub & (pre & post & ->) & H). apply eq_up_to_case_lower in H.
    exists (ascii_lower pre), (ascii_lower post).
    now rewrite !ascii_lower_app, H.
Qed.


Lemma filter_all {A : Type} (keep : A -> bool) (l : list A) :
  (forall x, keep x = true) -> filter keep l = l.
Proof.
  intros H. induction l as [|x rest IH]; simpl; [reflexivity|].
  now rewrite H, IH.
Qed.



(** ** Sorting *)

Section InsertionSorts.
Context {A : Type} (key : A -> Qc).

Let desc (x y : A) : Prop := (key y <= key x)%Qc.

Lemma insert_before_perm (x : A) (l : list A) :
  Permutation (x :: l) (insert_before key x l).
Proof.
  induction l as [|y rest IH]; simpl; [reflexivity|].
  destruct (Qclt_le_dec (key x) (key y)); [|reflexivity].
  rewrite perm_swap. now constructor.
Qed.

Lemma desc_trans (x y z : A) : desc x y -> desc y z -> desc x z.
Proof. unfold desc. intros Hxy Hyz. eapply Qcle_trans; eassumption. Qed.

Lemma insert_before_sorted (x : A) (l : list A) :
  StronglySorted desc l -> StronglySorted desc (insert_before key x l).
Proof.
  induction 1 as [|y rest Hsorted IH Hall]; simpl.
  - repeat constructor.
  - destruct (Qclt_le_dec (key x) (key y)) as [Hlt | Hle].
    + constructor; [exact IH|].
      apply (Permutation_Forall (insert_before_perm x rest)).
      constructor; [now apply Qclt_le_weak | exact Hall].
    + constructor; [now constructor|].
      constructor; [exact Hle|].
      eapply Forall_impl; [|exact Hall].
      intros z Hz. now apply (desc_trans x y z).
Qed.

Lemma sort_keeping_ties_perm (l : list A) :
  Permutation l (sort_keeping_ties A key l).
Proof.
  induction l as [|x rest IH]; simpl; [reflexivity|].
  rewrite <- insert_before_perm. now constructor.
Qed.

Lemma sort_keeping_ties_sorted (l : list A) :
  StronglySorted desc (sort_keeping_ties A key l).
Proof.
  induction l as [|x rest IH]; simpl; [constructor|].
  now apply insert_before_sorted.
Qed.

End InsertionSorts.

(** The insertion sort sorts in descending order. *)
Lemma sort_keeping_ties_descending : sorts_descending sort_keeping_ties.
Proof.
  intros A key l.
  split; [apply sort_keeping_ties_perm | apply sort_keeping_ties_sorted].
Qed.

Lemma StronglySorted_app_inv {A : Type} (R : A -> A -> Prop) (l1 l2 : list A) :
  StronglySorted R (l1 ++ l2) ->
  StronglySorted R l1 /\ forall x y, In x l1 -> In y l2 -> R x y.
Proof.
  induction l1 as [|a rest IH]; simpl; intros H.
  - split; [constructor | contradiction].
  - inversion H as [|? ? Hs Hall]; subst.
    destruct (IH Hs) as [Hs1 Hcross].
    rewrite Forall_app in Hall. destruct Hall as [Hall1 Hall2].
    split; [now constructor|].
    intros x y [<- | Hx] Hy; [|now apply Hcross].
    rewrite Forall_forall in Hall2. now apply Hall2.
Qed.

Section TopItems.
Variable sort_values : sorter.
Hypothesis sort_values_descending : sorts_descending sort_values.

(** Whatever sort in descending order pandas runs, the list of the most
    expensive items holds the 5 first rows of the inventory sorted by
    price (all of them when there are fewer), so at most 5; its prices
    descend; and no item left out costs more than an item of the list.
    Nothing is said of the order of items of equal price, which the
    sort decides. *)
Theorem sorted_items_top (inventory_data : list Item) :
  let top := sorted_items sort_values inventory_data in
  (List.length top <= 5)%nat /\
  List.length top = Nat.min 5 (List.length inventory_data) /\
  StronglySorted (fun x y => (price y <= price x)%Qc) top /\
  exists rest : list Item,
    Permutation inventory_data (top ++ rest) /\
    forall x y, In x top -> In y rest -> (price y <= price x)%Qc.
Proof.
  unfold sorted_items, head.
  set (sorted := sort_values Item price inventory_data).
  assert (Hperm : Permutation inventory_data sorted)
    by apply sort_values_descending.
  assert (Hsorted : StronglySorted (fun x y => (price y <= price x)%Qc) sorted)
    by apply sort_values_descending.
  assert (Hlen : List.length (firstn 5 sorted)
                 = Nat.min 5 (List.length inventory_data)).
  { rewrite length_firstn. now rewrite (Permutation_length Hperm). }
  rewrite <- (firstn_skipn 5 sorted) in Hsorted, Hperm.
  apply StronglySorted_app_inv in Hsorted. destruct Hsorted as [Htop Hcross].
  repeat split.
  - rewrite Hlen. apply Nat.le_min_l.
  - exact Hlen.
  - exact Htop.
  - exists (skipn 5 sorted). split; [exact Hperm | exact Hcross].
Qed.
End TopItems.

(** ** Grouping by category *)

Lemma insert_key_perm (k : string) (ks : list string) :
  Permutation (k :: ks) (insert_key k ks).
Proof.
  induction ks as [|k' rest IH]; simpl; [reflexivity|].
  destruct (String.leb k k'); [reflexivity|].
  rewrite perm_swap. now constructor.
Qed.

Lemma sort_keys_perm (ks : list string) : Permutation ks (sort_keys ks).
Proof.
  induction ks as [|k rest IH]; simpl; [reflexivity|].
  rewrite <- insert_key_perm. now constructor.
Qed.








Section CategoryChart.
Variable sort_values : sorter.
Hypothesis sort_values_descending : sorts_descending sort_values.




End CategoryChart.

Lemma sorted_items_top_witness :
  List.length (sorted_items sort_keeping_ties restocked) = 5%nat.
Proof.
  exact (proj1 (proj2 (sorted_items_top sort_keeping_ties
                         sort_keeping_ties_descending restocked))).
Defined.


(** ** The examples of the specification *)

Example search_gpu :
  map id (filtered_inventory "gpu" DEFAULT_INVENTORY) = [1].
Proof. reflexivity. Qed.

(** The search follows the case rules of Unicode beyond ASCII. *)
Example search_accented :
  map id (filtered_inventory "école"
            [mkItem 7 "ÉCOLE 3000" "Other" (dec 4900 100) 2]) = [7].
Proof. reflexivity. Qed.

Example summary_of_defaults :
  (total_items DEFAULT_INVENTORY, low_stock_count DEFAULT_INVENTORY) = (48, 1).
Proof. reflexivity. Qed.

Example chart_of_defaults :
  map (fun bar => fst (fst bar))
      (category_chart sort_keeping_ties DEFAULT_INVENTORY)
    = ["Laptop"; "Mobile"; "Accessory"; "GPU"].
Proof. reflexivity. Qed.

Example nothing_to_chart :
  render_analytics_view sort_keeping_ties []
    = info "No items in the vault to generate analytics.".
Proof. reflexivity. Qed.

(** The two-item inventory of the specification's worked example: 28
    items, one of them low in stock. *)
Example summary_of_two_items :
  let inventory_data :=
    [ mkItem 1 "RTX 4090" "GPU" (dec 159999 100) 3;
      mkItem 2 "Headset" "Accessory" (dec 34800 100) 25 ] in
  (total_items inventory_data, low_stock_count inventory_data) = (28, 1) /\
  map id (filtered_inventory "gpu" inventory_data) = [1] /\
  map id (head 1 (sort_keeping_ties _ price inventory_data)) = [1].
Proof. repeat split. Qed.

(** * Further properties of the code *)

(** ** Deleting and adding, composed *)

Lemma filter_id_absent (item_id : Z) (inv : list Item) :
  ~ In item_id (map id inv) ->
  filter (fun it => negb (id it =? item_id)) inv = inv.
Proof.
  induction inv as [|x rest IH]; simpl; intros Hnot; [reflexivity|].
  destruct (Z.eqb_spec (id x) item_id) as [Heq | Hneq]; simpl.
  - exfalso. apply Hnot. now left.
  - rewrite IH; [reflexivity | tauto].
Qed.

Lemma filter_id_In (item_id : Z) (inv : list Item) (x : Item) :
  In x (filter (fun it => negb (id it =? item_id)) inv) <->
  In x inv /\ id x <> item_id.
Proof.
  rewrite filter_In, negb_true_iff, Z.eqb_neq. reflexivity.
Qed.

(** With unique ids, an item and the others of its inventory. *)
Lemma filter_id_perm (inv : list Item) (it : Item) :
  NoDup (map id inv) -> In it inv ->
  Permutation inv (it :: filter (fun x => negb (id x =? id it)) inv).
Proof.
  induction inv as [|x rest IH]; simpl; intros Huniq Hin; [contradiction|].
  inversion Huniq as [|? ? Hnot Hrest]; subst.
  destruct Hin as [-> | Hin].
  - rewrite Z.eqb_refl. simpl. now rewrite filter_id_absent.
  - destruct (Z.eqb_spec (id x) (id it)) as [Heq | Hneq]; simpl.
    + exfalso. apply Hnot. rewrite Heq. now apply in_map.
    + rewrite perm_swap. constructor. now apply IH.
Qed.

Lemma py_max_init (x : Z) (xs : list Z) :
  (forall y, In y xs -> y <= x) -> py_max x xs = x.
Proof.
  intros Hle. destruct (py_max_attained xs x) as [H | H]; [exact H|].
  pose proof (py_max_ge_init xs x). specialize (Hle _ H). lia.
Qed.

(** The id that follows a freshly added item. *)
Lemma new_id_after_add (inv : list Item) (nm cat : string) (p : Qc) (q : Z) :
  new_id (mkItem (new_id inv) nm cat p q :: inv) = new_id inv + 1.
Proof.
  cbn [new_id id]. rewrite py_max_init; [reflexivity|].
  intros y Hy. apply in_map_iff in Hy. destruct Hy as (it & <- & Hin).
  apply new_id_above in Hin. lia.
Qed.

(** Deleting an id that no item has leaves the inventory as it is; the
    file is rewritten all the same. *)
Theorem delete_item_absent (item_id : Z) (w : World) :
  ~ In item_id (map id (inventory w)) ->
  inventory (fst (delete_item item_id w)) = inventory w /\
  disk (storage (fst (delete_item item_id w)))
    = Some (Encodes (inventory_json (inventory w))).
Proof.
  intros Hnot. simpl. now rewrite filter_id_absent.
Qed.

Lemma delete_item_absent_witness :
  inventory (fst (delete_item 9 first_run)) = DEFAULT_INVENTORY.
Proof.
  apply (delete_item_absent 9 first_run).
  simpl. intuition discriminate.
Defined.

(** [delete_item] keeps exactly the items of another id, in their order;
    with unique ids, deleting the id of an item of the inventory removes
    that item alone, so one item less is left. *)
Theorem delete_item_present (it : Item) (w : World) :
  NoDup (map id (inventory w)) -> In it (inventory w) ->
  let w' := fst (delete_item (id it) w) in
  (forall x, In x (inventory w') <-> In x (inventory w) /\ x <> it) /\
  Permutation (inventory w) (it :: inventory w') /\
  S (List.length (inventory w')) = List.length (inventory w).
Proof.
  intros Huniq Hin w'. subst w'. cbn [delete_item fst inventory].
  pose proof (filter_id_perm (inventory w) it Huniq Hin) as Hperm.
  split; [|split].
  - intros x. rewrite filter_id_In. split.
    + intros [Hx Hid]. split; [exact Hx | congruence].
    + intros [Hx Hne]. split; [exact Hx|]. intros Hid. apply Hne.
      apply (Permutation_in _ Hperm) in Hx. destruct Hx as [Hx | Hx]; [now symmetry|].
      apply filter_id_In in Hx. tauto.
  - exact Hperm.
  - apply Permutation_length in Hperm. simpl in Hperm. now symmetry.
Qed.

Lemma delete_item_present_witness :
  S (List.length (inventory (fst (delete_item 3 first_run)))) = 4%nat.
Proof.
  apply (delete_item_present
           (mkItem 3 "Samsung S24 Ultra" "Mobile" (dec 119950 100) 12) first_run).
  - simpl. repeat (constructor; [simpl; intuition discriminate|]). constructor.
  - simpl. auto.
Defined.

(** Deleting the id the next item would get undoes a submission of the
    form, whether the submission was carried out or refused. *)
Theorem add_then_delete_restores (nm cat : string) (p : Qc) (q : Z)
    (submitted : bool) (w : World) :
  inventory (fst (delete_item (new_id (inventory w))
                              (fst (add_item_form nm cat p q submitted w))))
    = inventory w.
Proof.
  cbn [delete_item fst inventory].
  destruct (add_item_form_inventory nm cat p q submitted w) as [-> | ->].
  - apply filter_id_absent, new_id_fresh.
  - cbn [filter id]. rewrite Z.eqb_refl. simpl.
    apply filter_id_absent, new_id_fresh.
Qed.

(** What a submitted request does when its name is non-empty and its
    price and quantity are not 0. *)
Lemma add_item_form_accepted (nm cat : string) (p : Qc) (q : Z) (w : World) :
  show_modal w = Some true ->
  nm <> "" -> p <> 0%Qc -> q <> 0 ->
  add_item_form nm cat p q true w =
    (mkWorld (mkItem (new_id (inventory w)) nm cat p q :: inventory w)
             (Some false)
             (save_data
                (inventory_json
                   (mkItem (new_id (inventory w)) nm cat p q :: inventory w))
                (storage w)),
     [success ("Added " ++ nm ++ " to the vault!")%string]).
Proof.
  intros Hm Hn Hp Hq. unfold add_item_form.
  now rewrite Hm, truthy_str_true, truthy_float_true, truthy_int_true.
Qed.

(** A request that is carried out closes the form: until the [ADD ITEM]
    button is pressed again, submitting does nothing.  After it is
    pressed again, the next item gets the next id and stands in front. *)
Theorem submit_twice (nm cat nm' cat' : string) (p p' : Qc) (q q' : Z)
    (w : World) :
  show_modal w = Some true ->
  nm <> "" -> p <> 0%Qc -> q <> 0 ->
  nm' <> "" -> p' <> 0%Qc -> q' <> 0 ->
  let w1 := fst (add_item_form nm cat p q true w) in
  add_item_form nm' cat' p' q' true w1 = (w1, []) /\
  inventory (fst (add_item_form nm' cat' p' q' true (press_add_item w1)))
    = mkItem (new_id (inventory w) + 1) nm' cat' p' q'
      :: mkItem (new_id (inventory w)) nm cat p q
      :: inventory w.
Proof.
  intros Hm Hn Hp Hq Hn' Hp' Hq' w1. subst w1.
  rewrite (add_item_form_accepted nm cat p q w) by assumption.
  cbn [fst]. split; [reflexivity|].
  rewrite add_item_form_accepted by (assumption || reflexivity).
  cbn [fst inventory press_add_item]. now rewrite new_id_after_add.
Qed.

Lemma submit_twice_witness :
  map id (inventory (fst (add_item_form "Pixel 9" "Mobile" (dec 79900 100) 1 true
            (press_add_item
               (fst (add_item_form "RTX 5090" "GPU" (dec 199999 100) 2 true
                                   first_run))))))
    = [6; 5; 1; 2; 3; 4].
Proof.
  destruct (submit_twice "RTX 5090" "GPU" "Pixel 9" "Mobile"
              (dec 199999 100) (dec 79900 100) 2 1 first_run) as [_ H];
    [reflexivity | discriminate | discriminate | lia
     | discriminate | discriminate | lia |].
  rewrite H. reflexivity.
Defined.

(** ** The file, the memo and the session *)

Lemma inventory_json_inj (a b : list Item) :
  inventory_json a = inventory_json b -> a = b.
Proof.
  intros H. apply (f_equal as_inventory) in H.
  rewrite !as_inventory_inventory_json in H. congruence.
Qed.

Lemma load_data_again (s : Storage) : load_data (snd (load_data s)) = load_data s.
Proof.
  unfold load_data. destruct s as [d [v|]]; simpl; [reflexivity|].
  destruct d as [[|doc]|]; reflexivity.
Qed.

Lemma load_data_disk (s : Storage) : disk (snd (load_data s)) = disk s.
Proof.
  unfold load_data. destruct s as [d [v|]]; simpl; [reflexivity|].
  destruct d as [[|doc]|]; reflexivity.
Qed.

(** The outcomes of [add_item_form]: nothing changes, or the request
    passed the test and its item is added and saved. *)
Lemma add_item_form_cases (nm cat : string) (p : Qc) (q : Z)
    (submitted : bool) (w : World) :
  fst (add_item_form nm cat p q submitted w) = w \/
  (nm <> "" /\ p <> 0%Qc /\ q <> 0 /\
   fst (add_item_form nm cat p q submitted w) =
     mkWorld (mkItem (new_id (inventory w)) nm cat p q :: inventory w)
             (Some false)
             (save_data
                (inventory_json
                   (mkItem (new_id (inventory w)) nm cat p q :: inventory w))
                (storage w))).
Proof.
  unfold add_item_form.
  destruct (show_modal w) as [[|]|]; auto.
  destruct submitted; auto.
  destruct nm as [|c nm']; simpl; auto.
  unfold truthy_float, truthy_int.
  destruct (Qc_eq_dec p 0) as [Hp | Hp]; simpl; auto.
  destruct (Z.eqb_spec q 0) as [Hq | Hq]; simpl; auto.
  right. repeat split; auto. discriminate.
Qed.

Lemma load_data_raise (s : Storage) (e : exn) :
  fst (load_data s) = Raise e -> snd (load_data s) = s.
Proof.
  unfold load_data. destruct s as [d [v|]]; simpl; [discriminate|].
  destruct d as [[|doc]|]; simpl; congruence.
Qed.

(** [load_data] is memoised: a second call gives what the first gave and
    changes nothing more; the file is never written; a value that was
    returned is the memo afterwards, an exception leaves no memo; and a
    memo is returned whatever the file holds by then. *)
Theorem load_data_memoised (s : Storage) :
  load_data (snd (load_data s)) = load_data s /\
  disk (snd (load_data s)) = disk s /\
  (forall v, fst (load_data s) = Ok v -> cache (snd (load_data s)) = Some v) /\
  (forall e, fst (load_data s) = Raise e -> snd (load_data s) = s) /\
  (forall v d, fst (load_data (mkStorage d (Some v))) = Ok v).
Proof.
  split; [apply load_data_again|].
  split; [apply load_data_disk|].
  unfold load_data. destruct s as [d [v0|]]; simpl.
  - repeat split; congruence.
  - destruct d as [[|doc]|]; simpl; repeat split; congruence.
Qed.

(** Every mutation reaches the file at once: after an item is added,
    after [delete_item] and after [clear_data] the file holds exactly
    what [export_data] would hand out, and [load_data] returns the
    inventory of the session. *)
Theorem mutations_are_saved (w : World) :
  (forall nm cat p q,
     show_modal w = Some true -> nm <> "" -> p <> 0%Qc -> q <> 0 ->
     let w' := fst (add_item_form nm cat p q true w) in
     disk (storage w') = Some (export_data w') /\ in_sync w') /\
  (forall item_id,
     let w' := fst (delete_item item_id w) in
     disk (storage w') = Some (export_data w') /\ in_sync w') /\
  (let w' := clear_data w in
   disk (storage w') = Some (export_data w') /\ in_sync w').
Proof.
  split; [|split].
  - intros nm cat p q Hm Hn Hp Hq w'. subst w'.
    rewrite add_item_form_accepted by assumption. split; reflexivity.
  - intros item_id w'. split; reflexivity.
  - split; reflexivity.
Qed.

Lemma mutations_are_saved_witness :
  in_sync (fst (add_item_form "RTX 5090" "GPU" (dec 199999 100) 2 true first_run)).
Proof.
  apply (mutations_are_saved first_run);
    [reflexivity | discriminate | discriminate | lia].
Defined.

(** ** What holds in every reachable world *)

Lemma new_id_positive (inv : list Item) :
  Forall well_formed inv -> 1 <= new_id inv.
Proof.
  destruct inv as [|it rest]; intros Hall; [simpl; lia|].
  inversion Hall as [|? ? (_ & _ & _ & _ & Hid) _]; subst.
  pose proof (new_id_above (it :: rest) it (or_introl eq_refl)). lia.
Qed.

Lemma run_invariant_start : run_invariant first_session.
Proof.
  unfold run_invariant, first_session. cbn [inventory storage].
  split; [|split; [|split]].
  - simpl. repeat (constructor; [simpl; intuition discriminate|]). constructor.
  - unfold well_formed.
    repeat (constructor;
            [simpl; repeat split; try discriminate; try lia; tauto|]).
    constructor.
  - reflexivity.
  - reflexivity.
Qed.

Lemma run_invariant_step (w w' : World) :
  run_invariant w -> step w w' -> run_invariant w'.
Proof.
  intros (Huniq & Hwf & Hsync & Hnofile) Hstep.
  destruct Hstep as [w | nm cat p q submitted w Hrange | item_id w | w | inv w Hload].
  - repeat split; assumption.
  - destruct (add_item_form_cases nm cat p q submitted w)
      as [-> | (Hn & Hp & Hq & ->)].
    + repeat split; assumption.
    + destruct Hrange as (Hcat & Hprice & Hqty).
      split; [|split; [|split]]; cbn [inventory storage].
      * simpl. constructor; [apply new_id_fresh | assumption].
      * constructor; [|assumption].
        repeat split; cbn [name category price qty id]; auto.
        now apply new_id_positive.
      * reflexivity.
      * discriminate.
  - split; [|split; [|split]]; cbn [delete_item fst inventory storage].
    + now apply NoDup_map_filter.
    + apply Forall_forall. intros x Hx. apply filter_In in Hx.
      rewrite Forall_forall in Hwf. now apply Hwf.
    + reflexivity.
    + discriminate.
  - split; [|split; [|split]]; cbn [clear_data inventory storage].
    + constructor.
    + constructor.
    + reflexivity.
    + discriminate.
  - assert (Heq : inv = inventory w).
    { apply inventory_json_inj. unfold in_sync in Hsync. congruence. }
    subst inv. split; [|split; [|split]]; cbn [inventory storage].
    + assumption.
    + assumption.
    + unfold in_sync. cbn [inventory storage].
      now rewrite load_data_again.
    + rewrite load_data_disk. assumption.
Qed.

Lemma reachable_run_invariant (w : World) : reachable w -> run_invariant w.
Proof.
  induction 1 as [|w w' _ IH Hstep].
  - apply run_invariant_start.
  - now apply (run_invariant_step w w').
Qed.

Lemma reachable_busy_session : reachable busy_session.
Proof.
  apply (reachable_step (press_add_item first_session)).
  - apply (reachable_step first_session); constructor.
  - apply step_submit. unfold widget_range. split; [|split].
    + simpl. tauto.
    + unfold Qcle, Qle. simpl. lia.
    + lia.
Qed.

(** In every reachable world the ids are unique and every item is as the
    form makes items: a non-empty name, a category of the select box, a
    price of at least 0.01, a quantity of at least 1 and a positive id. *)
Theorem reachable_inventory_well_formed (w : World) :
  reachable w ->
  NoDup (map id (inventory w)) /\ Forall well_formed (inventory w).
Proof.
  intros Hreach. destruct (reachable_run_invariant w Hreach) as (H1 & H2 & _).
  now split.
Qed.

Lemma reachable_inventory_well_formed_witness :
  NoDup (map id (inventory busy_session)).
Proof.
  apply (reachable_inventory_well_formed busy_session).
  apply reachable_busy_session.
Defined.

(** In every reachable world the session and the storage agree:
    [load_data] returns the inventory of the session, which reads back
    item for item; and as long as no file has been written the session
    holds the built-in inventory. *)
Theorem reachable_in_sync (w : World) :
  reachable w ->
  (exists doc, fst (load_data (storage w)) = Ok doc /\
               as_inventory doc = Some (inventory w)) /\
  (disk (storage w) = None -> inventory w = DEFAULT_INVENTORY).
Proof.
  intros Hreach.
  destruct (reachable_run_invariant w Hreach) as (_ & _ & Hsync & Hnofile).
  split; [|exact Hnofile].
  exists (inventory_json (inventory w)).
  split; [exact Hsync | apply as_inventory_inventory_json].
Qed.

Lemma reachable_in_sync_witness :
  exists doc, fst (load_data (storage busy_session)) = Ok doc /\
              as_inventory doc = Some (inventory busy_session).
Proof.
  apply (reachable_in_sync busy_session).
  apply reachable_busy_session.
Defined.

(** No interaction edits an item: every item of the world after a step
    was there before, unchanged, or is the one new item, whose id lies
    above all ids of before; and a step adds at most one item. *)
Theorem step_keeps_items (w w' : World) :
  reachable w -> step w w' ->
  (forall it, In it (inventory w') ->
     In it (inventory w) \/ forall x, In x (inventory w) -> id x < id it) /\
  (List.length (inventory w') <= S (List.length (inventory w)))%nat.
Proof.
  intros Hreach Hstep.
  destruct (reachable_run_invariant w Hreach) as (_ & _ & Hsync & _).
  destruct Hstep as [w | nm cat p q submitted w Hrange | item_id w | w | inv w Hload].
  - cbn [press_add_item inventory]. split; [auto | lia].
  - destruct (add_item_form_cases nm cat p q submitted w)
      as [-> | (_ & _ & _ & ->)]; [split; [auto | lia]|].
    cbn [inventory]. split; [|simpl; lia].
    intros it [<- | Hin]; [right | now left].
    intros x Hx. now apply new_id_above.
  - cbn [delete_item fst inventory]. split.
    + intros it Hin. left. apply filter_In in Hin. tauto.
    + pose proof (filter_length_le (fun it => negb (id it =? item_id))
                                   (inventory w)). lia.
  - cbn [clear_data inventory]. split; [contradiction | simpl; lia].
  - assert (Heq : inv = inventory w).
    { apply inventory_json_inj. unfold in_sync in Hsync. congruence. }
    subst inv. cbn [inventory]. split; [auto | lia].
Qed.

Lemma step_keeps_items_witness :
  (List.length (inventory (fst (delete_item 5 busy_session)))
     <= S (List.length (inventory busy_session)))%nat.
Proof.
  apply (step_keeps_items busy_session (fst (delete_item 5 busy_session))).
  - apply reachable_busy_session.
  - apply step_delete.
Defined.

(** ** The statistics under the operations *)

Lemma py_sum_perm (xs ys : list Z) : Permutation xs ys -> py_sum xs = py_sum ys.
Proof.
  induction 1 as [| x l l' _ IH | x y l | l l' l'' _ IH1 _ IH2].
  - reflexivity.
  - now rewrite !py_sum_cons, IH.
  - rewrite !py_sum_cons. lia.
  - congruence.
Qed.

Lemma total_items_cons (it : Item) (inv : list Item) :
  total_items (it :: inv) = qty it + total_items inv.
Proof. unfold total_items. cbn [map]. apply py_sum_cons. Qed.

Lemma total_value_cons (it : Item) (inv : list Item) :
  total_value (it :: inv) = (item_value it + total_value inv)%Qc.
Proof. unfold total_value. cbn [map]. apply py_fsum_cons. Qed.

Lemma low_stock_count_cons (it : Item) (inv : list Item) :
  low_stock_count (it :: inv)
    = (if qty it <? 5 then 1 else 0) + low_stock_count inv.
Proof.
  unfold low_stock_count. cbn [filter].
  destruct (qty it <? 5); cbn [List.length]; lia.
Qed.

Lemma filter_perm {A : Type} (keep : A -> bool) (l l' : list A) :
  Permutation l l' -> Permutation (filter keep l) (filter keep l').
Proof.
  induction 1 as [| x l l' _ IH | x y l | l l' l'' _ IH1 _ IH2]; simpl.
  - constructor.
  - destruct (keep x); [now constructor | assumption].
  - destruct (keep x), (keep y); try reflexivity. apply perm_swap.
  - now transitivity (filter keep l').
Qed.

Lemma statistics_perm (inv inv' : list Item) :
  Permutation inv inv' ->
  total_items inv = total_items inv' /\
  low_stock_count inv = low_stock_count inv'.
Proof.
  intros Hperm. split.
  - apply py_sum_perm. now apply Permutation_map.
  - unfold low_stock_count. f_equal.
    apply Permutation_length. now apply filter_perm.
Qed.

(** Total items and the low stock alerts do not depend on the order of
    the inventory.  (The inventory value is left out: it is a sum of
    floats added up in the order of the inventory.) *)
Theorem statistics_ignore_order (inv inv' : list Item) :
  Permutation inv inv' ->
  (total_items inv, low_stock_count inv)
    = (total_items inv', low_stock_count inv').
Proof.
  intros Hperm. destruct (statistics_perm inv inv' Hperm) as (-> & ->).
  reflexivity.
Qed.

Lemma statistics_ignore_order_witness :
  (total_items DEFAULT_INVENTORY, low_stock_count DEFAULT_INVENTORY)
  = (total_items (rev DEFAULT_INVENTORY), low_stock_count (rev DEFAULT_INVENTORY)).
Proof.
  apply (statistics_ignore_order DEFAULT_INVENTORY (rev DEFAULT_INVENTORY)).
  apply Permutation_rev.
Defined.

(** An added item raises total items by its quantity and the low stock
    alerts by 1 when its quantity is below 5. *)
Theorem statistics_after_add (nm cat : string) (p : Qc) (q : Z) (w : World) :
  show_modal w = Some true -> nm <> "" -> p <> 0%Qc -> q <> 0 ->
  let w' := fst (add_item_form nm cat p q true w) in
  total_items (inventory w') = total_items (inventory w) + q /\
  low_stock_count (inventory w')
    = low_stock_count (inventory w) + (if q <? 5 then 1 else 0).
Proof.
  intros Hm Hn Hp Hq w'. subst w'.
  rewrite add_item_form_accepted by assumption. cbn [fst inventory].
  rewrite total_items_cons, low_stock_count_cons.
  cbn [qty]. split; lia.
Qed.

Lemma statistics_after_add_witness :
  total_items
    (inventory (fst (add_item_form "RTX 5090" "GPU" (dec 199999 100) 2 true
                                   first_run)))
    = total_items DEFAULT_INVENTORY + 2.
Proof.
  apply (statistics_after_add "RTX 5090" "GPU" (dec 199999 100) 2 first_run);
    [reflexivity | discriminate | discriminate | lia].
Defined.

(** With unique ids, deleting an item of the inventory lowers total
    items by its quantity and the low stock alerts by 1 when its
    quantity is below 5. *)
Theorem statistics_after_delete (it : Item) (w : World) :
  NoDup (map id (inventory w)) -> In it (inventory w) ->
  let w' := fst (delete_item (id it) w) in
  total_items (inventory w') = total_items (inventory w) - qty it /\
  low_stock_count (inventory w')
    = low_stock_count (inventory w) - (if qty it <? 5 then 1 else 0).
Proof.
  intros Huniq Hin w'. subst w'. cbn [delete_item fst inventory].
  destruct (statistics_perm _ _ (filter_id_perm (inventory w) it Huniq Hin))
    as (-> & ->).
  rewrite total_items_cons, low_stock_count_cons.
  split; lia.
Qed.

Lemma statistics_after_delete_witness :
  total_items (inventory (fst (delete_item 3 first_run)))
    = total_items DEFAULT_INVENTORY - 12.
Proof.
  apply (statistics_after_delete
           (mkItem 3 "Samsung S24 Ultra" "Mobile" (dec 119950 100) 12) first_run).
  - simpl. repeat (constructor; [simpl; intuition discriminate|]). constructor.
  - simpl. auto.
Defined.

Lemma of_int_positive (n : Z) : 0 < n -> (0 < of_int n)%Qc.
Proof.
  intros Hn. unfold Qclt.
  change (this (of_int n)) with (Qred (inject_Z n)).
  rewrite Qred_correct. unfold Qlt. simpl. lia.
Qed.

Lemma item_value_positive (it : Item) :
  well_formed it -> (0 < item_value it)%Qc.
Proof.
  intros (_ & _ & Hprice & Hqty & _). unfold item_value.
  assert (Hp : (0 < price it)%Qc).
  { apply (Qclt_le_trans _ (dec 1 100)); [reflexivity | exact Hprice]. }
  assert (Hq : (0 < of_int (qty it))%Qc) by (apply of_int_positive; lia).
  replace 0%Qc with (0 * of_int (qty it))%Qc by ring.
  now apply Qcmult_lt_compat_r.
Qed.

Lemma Qcplus_pos_nonneg (a b : Qc) : (0 < a)%Qc -> (0 <= b)%Qc -> (0 < a + b)%Qc.
Proof.
  intros Ha Hb. apply (Qclt_le_trans _ (a + 0)%Qc).
  - now rewrite Qcplus_0_r.
  - apply Qcplus_le_compat; [apply Qcle_refl | exact Hb].
Qed.

Lemma total_value_nonneg (inv : list Item) :
  Forall well_formed inv -> (0 <= total_value inv)%Qc.
Proof.
  induction 1 as [|it rest Hit _ IH].
  - apply Qcle_refl.
  - rewrite total_value_cons. apply Qclt_le_weak.
    apply Qcplus_pos_nonneg; [now apply item_value_positive | exact IH].
Qed.

Lemma total_value_positive (inv : list Item) :
  Forall well_formed inv -> inv <> [] -> (0 < total_value inv)%Qc.
Proof.
  intros Hall Hne. destruct inv as [|it rest]; [congruence|].
  inversion Hall; subst. rewrite total_value_cons.
  apply Qcplus_pos_nonneg;
    [now apply item_value_positive | now apply total_value_nonneg].
Qed.

Lemma total_items_length (inv : list Item) :
  Forall well_formed inv -> Z.of_nat (List.length inv) <= total_items inv.
Proof.
  induction 1 as [|it rest (_ & _ & _ & Hqty & _) _ IH].
  - reflexivity.
  - rewrite total_items_cons. cbn [List.length]. lia.
Qed.

(** In a reachable world that holds items, the value of the inventory
    is above 0, there are at least as many pieces as items, and the low
    stock alerts are between 0 and the number of items. *)
Theorem reachable_statistics (w : World) :
  reachable w -> inventory w <> [] ->
  (0 < total_value (inventory w))%Qc /\
  Z.of_nat (List.length (inventory w)) <= total_items (inventory w) /\
  0 <= low_stock_count (inventory w) <= Z.of_nat (List.length (inventory w)).
Proof.
  intros Hreach Hne.
  destruct (reachable_run_invariant w Hreach) as (_ & Hwf & _).
  split; [now apply total_value_positive|].
  split; [now apply total_items_length|].
  unfold low_stock_count.
  pose proof (filter_length_le (fun item => qty item <? 5) (inventory w)). lia.
Qed.

Lemma reachable_statistics_witness :
  (0 < total_value (inventory busy_session))%Qc.
Proof.
  apply (reachable_statistics busy_session).
  - apply reachable_busy_session.
  - discriminate.
Defined.

(** ** The analytics view *)

Lemma nodup_length_le (ks : list string) :
  (List.length (nodup string_dec ks) <= List.length ks)%nat.
Proof.
  apply NoDup_incl_length; [apply NoDup_nodup|].
  intros k. apply nodup_In.
Qed.

Section AnalyticsView.
Variable sort_values : sorter.
Hypothesis sort_values_descending : sorts_descending sort_values.

Lemma category_chart_length (inventory_data : list Item) :
  List.length (category_chart sort_values inventory_data)
    = List.length (nodup string_dec (map category inventory_data)).
Proof.
  unfold category_chart, category_stats. rewrite length_map.
  rewrite <- (Permutation_length (proj1 (sort_values_descending _ snd _))).
  unfold groupby_sum. rewrite length_map.
  rewrite <- (Permutation_length (sort_keys_perm _)).
  now rewrite map_map.
Qed.

(** There are no more bars than items, and at most six when every
    category is one of the select box. *)
Theorem bars_are_few (inventory_data : list Item) :
  (List.length (category_chart sort_values inventory_data)
     <= List.length inventory_data)%nat /\
  (Forall (fun it => In (category it) CATEGORY_ICONS_keys) inventory_data ->
   (List.length (category_chart sort_values inventory_data) <= 6)%nat).
Proof.
  split.
  - rewrite category_chart_length.
    rewrite <- (length_map category inventory_data). apply nodup_length_le.
  - intros Hcats. rewrite category_chart_length.
    change 6%nat with (List.length CATEGORY_ICONS_keys).
    apply NoDup_incl_length; [apply NoDup_nodup|].
    intros c Hc. apply nodup_In, in_map_iff in Hc.
    destruct Hc as (it & <- & Hin).
    rewrite Forall_forall in Hcats. now apply Hcats.
Qed.

(** On an inventory that holds items the analytics view draws both
    charts: there is at least one bar; the list of expensive items starts
    with an item that no item of the inventory outprices; and with at
    most five items the list holds the whole inventory. *)
Theorem analytics_of_items (inventory_data : list Item) :
  inventory_data <> [] ->
  exists bars best others,
    render_analytics_view sort_values inventory_data
      = charts bars (best :: others) /\
    bars <> [] /\
    In best inventory_data /\
    (forall it, In it inventory_data -> (price it <= price best)%Qc) /\
    ((List.length inventory_data <= 5)%nat ->
       Permutation inventory_data (best :: others)).
Proof.
  intros Hne.
  destruct (sort_values_descending Item price inventory_data) as [Hperm Hsorted].
  destruct (sort_values Item price inventory_data) as [|best sorted] eqn:Hsort.
  - apply Permutation_sym, Permutation_nil in Hperm. contradiction.
  - exists (category_chart sort_values inventory_data), best, (firstn 4 sorted).
    split; [|split; [|split; [|split]]].
    + destruct inventory_data as [|it rest]; [contradiction|].
      unfold render_analytics_view, sorted_items, head. now rewrite Hsort.
    + intros Hbars. apply (f_equal (@List.length _)) in Hbars.
      rewrite category_chart_length in Hbars.
      destruct inventory_data as [|it rest]; [contradiction|].
      assert (Hin : In (category it)
                       (nodup string_dec (map category (it :: rest))))
        by (apply nodup_In; now left).
      destruct (nodup string_dec (map category (it :: rest)));
        [contradiction | discriminate].
    + apply (Permutation_in _ (Permutation_sym Hperm)). now left.
    + intros it Hin. apply (Permutation_in _ Hperm) in Hin.
      destruct Hin as [<- | Hin]; [apply Qcle_refl|].
      inversion Hsorted as [|? ? _ Hall]; subst.
      rewrite Forall_forall in Hall. now apply Hall.
    + intros Hlen. rewrite (Permutation_length Hperm) in Hlen.
      cbn [List.length] in Hlen.
      rewrite firstn_all2 by lia. exact Hperm.
Qed.
End AnalyticsView.

Lemma bars_are_few_witness :
  (List.length (category_chart sort_keeping_ties DEFAULT_INVENTORY) <= 4)%nat.
Proof.
  apply (bars_are_few sort_keeping_ties sort_keeping_ties_descending
                      DEFAULT_INVENTORY).
Defined.

Lemma analytics_of_items_witness :
  exists bars best others,
    render_analytics_view sort_keeping_ties DEFAULT_INVENTORY
      = charts bars (best :: others) /\
    forall it, In it DEFAULT_INVENTORY -> (price it <= price best)%Qc.
Proof.
  destruct (analytics_of_items sort_keeping_ties sort_keeping_ties_descending
              DEFAULT_INVENTORY) as (bars & best & others & H1 & _ & _ & H2 & _);
    [discriminate|].
  now exists bars, best, others.
Defined.

(** ** Searching *)

Lemma py_in_empty (s : string) : py_in "" s = true.
Proof. now destruct s. Qed.

(** The search is a filter for every term: the empty term passes every
    item. *)
Lemma filtered_inventory_filter (search_term : string) (inv : list Item) :
  filtered_inventory search_term inv = filter (matches (lower search_term)) inv.
Proof.
  unfold filtered_inventory.
  destruct search_term as [|c s]; [|reflexivity].
  simpl. symmetry. apply filter_all. intros it.
  unfold matches. now rewrite py_in_empty.
Qed.

Lemma string_app_assoc (a b c : string) :
  ((a ++ b) ++ c)%string = (a ++ b ++ c)%string.
Proof. induction a as [|x a' IH]; simpl; congruence. Qed.

Lemma py_in_trans (a b c : string) :
  py_in a b = true -> py_in b c = true -> py_in a c = true.
Proof.
  rewrite !py_in_spec.
  intros (pre & post & ->) (pre' & post' & ->).
  exists (pre' ++ pre)%string, (post ++ post')%string.
  now rewrite !string_app_assoc.
Qed.

Lemma filter_comm {A : Type} (f g : A -> bool) (l : list A) :
  filter f (filter g l) = filter g (filter f l).
Proof.
  induction l as [|x rest IH]; simpl; [reflexivity|].
  destruct (f x) eqn:Hf, (g x) eqn:Hg; simpl; rewrite ?Hf, ?Hg, IH; reflexivity.
Qed.

Lemma filter_implied {A : Type} (f g : A -> bool) (l : list A) :
  (forall x, f x = true -> g x = true) ->
  filter f (filter g l) = filter f l.
Proof.
  intros Himp. induction l as [|x rest IH]; simpl; [reflexivity|].
  destruct (g x) eqn:Hg; simpl.
  - now rewrite IH.
  - destruct (f x) eqn:Hf; [|exact IH].
    apply Himp in Hf. congruence.
Qed.

(** The case of the letters of an ASCII term does not matter: a term
    and the same term with some of its letters in the other case find
    the same items. *)
Theorem search_ignores_case (term term' : string) (inv : list Item) :
  is_ascii term = true -> eq_up_to_case term term' ->
  filtered_inventory term inv = filtered_inventory term' inv.
Proof.
  intros Hascii Heq.
  pose proof (eq_up_to_case_ascii term term' Heq Hascii) as Hascii'.
  rewrite !filtered_inventory_filter.
  rewrite (lower_of_ascii term Hascii), (lower_of_ascii term' Hascii').
  apply eq_up_to_case_lower in Heq. now rewrite Heq.
Qed.

Lemma search_ignores_case_witness :
  filtered_inventory "LapTop" DEFAULT_INVENTORY
    = filtered_inventory "laptop" DEFAULT_INVENTORY.
Proof.
  apply (search_ignores_case "LapTop" "laptop" DEFAULT_INVENTORY).
  - reflexivity.
  - simpl. unfold same_letter, letter_pairs. simpl.
    repeat split; auto 40.
Defined.

(** A longer ASCII term narrows the search: when [term] occurs in
    [longer] up to case, searching for [longer] finds only items that
    [term] finds, and searching within the results of [term] loses
    nothing. *)
Theorem search_narrows (term longer : string) (inv : list Item) :
  is_ascii term = true -> is_ascii longer = true ->
  contains_up_to_case term longer ->
  filtered_inventory longer (filtered_inventory term inv)
    = filtered_inventory longer inv /\
  incl (filtered_inventory longer inv) (filtered_inventory term inv) /\
  (List.length (filtered_inventory longer inv)
     <= List.length (filtered_inventory term inv))%nat.
Proof.
  intros Hterm Hlonger Hocc. apply py_in_ascii_lower in Hocc.
  rewrite <- (lower_of_ascii term Hterm), <- (lower_of_ascii longer Hlonger)
    in Hocc.
  assert (Himp : forall it, matches (lower longer) it = true ->
                            matches (lower term) it = true).
  { intros it. unfold matches. rewrite !orb_true_iff.
    intros [H | H]; [left | right]; eapply py_in_trans; eassumption. }
  rewrite !filtered_inventory_filter.
  assert (Heq : filter (matches (lower longer)) (filter (matches (lower term)) inv)
                = filter (matches (lower longer)) inv)
    by now apply filter_implied.
  split; [exact Heq|]. split.
  - intros it. rewrite !filter_In. intros [Hin Hm]. auto.
  - rewrite <- Heq. apply filter_length_le.
Qed.

Lemma search_narrows_witness :
  incl (filtered_inventory "sony wh" DEFAULT_INVENTORY)
       (filtered_inventory "SONY" DEFAULT_INVENTORY).
Proof.
  apply (search_narrows "SONY" "sony wh" DEFAULT_INVENTORY).
  - reflexivity.
  - reflexivity.
  - exists "sony". split; [now exists "", " wh"|].
    simpl. unfold same_letter, letter_pairs. simpl.
    repeat split; auto 40.
Defined.

(** Searches compose: searching within the results of another search
    gives the same whichever term comes first, searching again for the
    same term changes nothing, and a search never finds more items than
    there are. *)
Theorem search_composes (term term' : string) (inv : list Item) :
  filtered_inventory term (filtered_inventory term' inv)
    = filtered_inventory term' (filtered_inventory term inv) /\
  filtered_inventory term (filtered_inventory term inv)
    = filtered_inventory term inv /\
  (List.length (filtered_inventory term inv) <= List.length inv)%nat.
Proof.
  rewrite !filtered_inventory_filter. split; [apply filter_comm|]. split.
  - now apply filter_implied.
  - apply filter_length_le.
Qed.

(** ** Starting a session *)

(** [initialize_session_state] never writes the file and never replaces
    a key of the session that is there; when it returns, both keys are
    there; when [load_data] raises, the session and the storage are as
    they were; and with an inventory in the session the storage is not
    even read. *)
Theorem initialize_session_state_keeps (ss : Session) (s : Storage) :
  let '(raised, ss', s') := initialize_session_state ss s in
  disk s' = disk s /\
  (raised = None ->
     session_inventory ss' <> None /\ current_view ss' <> None) /\
  (forall e, raised = Some e -> ss' = ss /\ s' = s) /\
  (forall v, session_inventory ss = Some v ->
     raised = None /\ session_inventory ss' = Some v /\ s' = s) /\
  (forall view, current_view ss = Some view ->
     raised = None -> current_view ss' = Some view).
Proof.
  unfold initialize_session_state.
  destruct ss as [[v|] view]; cbn [session_inventory current_view].
  - repeat split; try congruence;
      destruct view; cbn; congruence.
  - pose proof (load_data_disk s) as Hdisk.
    pose proof (load_data_raise s) as Hraise.
    destruct (load_data s) as [[doc | e] s'] eqn:Hload; cbn [fst snd] in *.
    + repeat split; try congruence; destruct view; cbn; congruence.
    + specialize (Hraise e eq_refl). subst s'.
      repeat split; congruence.
Qed.

(** A session that has been initialised stays as it is when
    [initialize_session_state] runs again, as it does at the start of
    every run; the first session of an installation finds the built-in
    inventory and the inventory page, and no file is made. *)
Theorem initialize_session_state_again (ss : Session) (s : Storage) :
  (forall ss' s',
     initialize_session_state ss s = (None, ss', s') ->
     initialize_session_state ss' s' = (None, ss', s')) /\
  initialize_session_state (mkSession None None) (mkStorage None None)
    = (None,
       mkSession (Some (inventory_json DEFAULT_INVENTORY)) (Some "Inventory"),
       mkStorage None (Some (inventory_json DEFAULT_INVENTORY))).
Proof.
  split; [|reflexivity].
  intros ss' s'. unfold initialize_session_state.
  destruct ss as [[v|] view]; cbn [session_inventory current_view].
  - intros H. inversion H; subst. cbn. now destruct view.
  - destruct (load_data s) as [[doc | e] s1]; intros H; inversion H; subst.
    cbn. now destruct view.
Qed.

(** ** The grid of the inventory page *)

Lemma cards_from_items (i : nat) (filtered : list Item) :
  map card_item (cards_from i filtered) = filtered.
Proof.
  revert i. induction filtered as [|it rest IH]; intros i; simpl;
    [reflexivity | now rewrite IH].
Qed.

Lemma cards_from_nth (filtered : list Item) (i n : nat) (c : Card) :
  nth_error (cards_from i filtered) n = Some c ->
  col c = ((i + n) mod 3)%nat /\
  nth_error filtered n = Some (card_item c) /\
  icon c = dict_get CATEGORY_ICONS (category (card_item c)) "📦" /\
  stock_class c = (if qty (card_item c) <? 5 then "low-stock" else "").
Proof.
  revert i n. induction filtered as [|it rest IH]; intros i n; simpl.
  - destruct n; discriminate.
  - destruct n as [|n]; simpl.
    + intros H. inversion H; subst. simpl. now rewrite Nat.add_0_r.
    + intros H. apply IH in H. now rewrite Nat.add_succ_r.
Qed.

Lemma cards_from_low_stock (i : nat) (filtered : list Item) :
  Z.of_nat (List.length
              (filter (fun c => (stock_class c =? "low-stock")%string)
                      (cards_from i filtered)))
    = low_stock_count filtered.
Proof.
  revert i. induction filtered as [|it rest IH]; intros i; [reflexivity|].
  rewrite low_stock_count_cons. cbn [cards_from filter stock_class].
  destruct (qty it <? 5).
  - change ("low-stock" =? "low-stock")%string with true.
    cbn [List.length]. rewrite Nat2Z.inj_succ, IH. lia.
  - change ("" =? "low-stock")%string with false.
    cbv iota. rewrite IH. lia.
Qed.

Lemma dict_get_missing (d : list (string * string)) (key default : string) :
  ~ In key (map fst d) -> dict_get d key default = default.
Proof.
  induction d as [|[k v] rest IH]; simpl; intros Hnot; [reflexivity|].
  destruct (String.eqb_spec k key) as [Heq | _]; [tauto|].
  apply IH. tauto.
Qed.

(** The grid shows a message exactly when the search finds nothing;
    otherwise it has one card per item found, in the order of the
    inventory, the card at position [n] in column [n mod 3] with the
    class [low-stock] exactly when its quantity is below 5, and an item
    of a category without an icon gets the box of [Other]; the flagged
    cards are as many as the items found that are low in stock, which
    without a search term is the number of the low stock alerts. *)
Theorem inventory_grid_cards (search_term : string) (inv : list Item) :
  let filtered := filtered_inventory search_term inv in
  (filtered = [] <-> exists msg, inventory_grid filtered = no_items msg) /\
  (forall cs, inventory_grid filtered = cards cs ->
     map card_item cs = filtered /\
     (forall n c, nth_error cs n = Some c ->
        col c = (n mod 3)%nat /\
        (stock_class c = "low-stock" <-> qty (card_item c) < 5) /\
        (~ In (category (card_item c)) CATEGORY_ICONS_keys ->
           icon c = dict_get CATEGORY_ICONS "Other" "")) /\
     Z.of_nat (List.length
                 (filter (fun c => (stock_class c =? "low-stock")%string) cs))
       = low_stock_count filtered /\
     (search_term = "" -> low_stock_count filtered = low_stock_count inv)).
Proof.
  intros filtered. split.
  - unfold inventory_grid. destruct filtered as [|it rest].
    + split; [eexists; reflexivity | reflexivity].
    + split; [discriminate | intros (msg & H); discriminate].
  - intros cs Hgrid.
    assert (Hcs : cs = cards_from 0 filtered).
    { unfold inventory_grid in Hgrid.
      destruct filtered; [discriminate | now inversion Hgrid]. }
    subst cs. split; [apply cards_from_items|]. split; [|split].
    + intros n c Hnth. apply cards_from_nth in Hnth.
      destruct Hnth as (Hcol & _ & Hicon & Hclass).
      split; [exact Hcol|]. split.
      * rewrite Hclass. destruct (Z.ltb_spec (qty (card_item c)) 5); split;
          intros; [assumption | reflexivity | discriminate | lia].
      * intros Hmissing. rewrite Hicon. now apply dict_get_missing.
    + apply cards_from_low_stock.
    + intros Hterm. unfold filtered. now rewrite Hterm.
Qed.

(** ** The buttons *)

Lemma press_delete_cases (pressed : Z -> bool) (filtered : list Item) (w : World) :
  (press_delete pressed filtered w = (w, []) /\
   forall it, In it filtered -> pressed (id it) = false) \/
  (exists it, In it filtered /\ pressed (id it) = true /\
              press_delete pressed filtered w = delete_item (id it) w).
Proof.
  induction filtered as [|x rest IH]; simpl.
  - left. split; [reflexivity | contradiction].
  - destruct (pressed (id x)) eqn:Hx.
    + right. exists x. auto.
    + destruct IH as [[Heq Hnone] | (it & Hin & Hp & Heq)].
      * left. split; [exact Heq|]. intros it [<- | Hin]; auto.
      * right. exists it. auto.
Qed.

(** A [DELETE] button acts on the cards that are shown: with no button
    of a shown card pressed nothing changes; otherwise one shown item's
    id is deleted, and with unique ids every item the search hides stays
    in the inventory and at most one item goes. *)
Theorem press_delete_shown (pressed : Z -> bool) (search_term : string)
    (w : World) :
  NoDup (map id (inventory w)) ->
  let filtered := filtered_inventory search_term (inventory w) in
  let w' := fst (press_delete pressed filtered w) in
  ((forall it, In it filtered -> pressed (id it) = false) ->
     press_delete pressed filtered w = (w, [])) /\
  (forall it, In it (inventory w) -> ~ In it filtered -> In it (inventory w')) /\
  (List.length (inventory w) <= S (List.length (inventory w')))%nat.
Proof.
  intros Huniq filtered w'.
  assert (Hshown : forall it, In it filtered -> In it (inventory w)).
  { intros it Hin. unfold filtered in Hin.
    rewrite filtered_inventory_filter in Hin. apply filter_In in Hin. tauto. }
  destruct (press_delete_cases pressed filtered w)
    as [[Heq Hnone] | (it & Hin & Hp & Heq)].
  - subst w'. rewrite Heq. cbn [fst]. split; [auto|]. split; [auto | lia].
  - split; [|split].
    + intros Hnone. rewrite (Hnone it Hin) in Hp. discriminate.
    + intros x Hx Hhidden. subst w'. rewrite Heq.
      cbn [delete_item fst inventory]. apply filter_id_In. split; [exact Hx|].
      intros Hid. apply Hhidden.
      pose proof (filter_id_perm (inventory w) it Huniq (Hshown it Hin)) as Hperm.
      apply (Permutation_in _ Hperm) in Hx. destruct Hx as [<- | Hx]; [exact Hin|].
      apply filter_id_In in Hx. tauto.
    + subst w'. rewrite Heq. cbn [delete_item fst inventory].
      pose proof (filter_id_perm (inventory w) it Huniq (Hshown it Hin)) as Hperm.
      apply Permutation_length in Hperm. simpl in Hperm. lia.
Qed.

Lemma press_delete_shown_witness :
  In (mkItem 2 "MacBook Pro M2" "Laptop" (dec 249900 100) 8)
     (inventory (fst (press_delete (fun _ => true)
                        (filtered_inventory "gpu" (inventory first_run))
                        first_run))).
Proof.
  apply (press_delete_shown (fun _ => true) "gpu" first_run).
  - simpl. repeat (constructor; [simpl; intuition discriminate|]). constructor.
  - simpl. auto.
  - simpl. intros [H | []]. discriminate.
Defined.

(** The purge needs both of its buttons: unless [PURGE ALL] and
    [CONFIRM PURGE] are pressed in the same run, the settings page
    changes nothing; when they are, the inventory is empty, the file
    holds the empty list and every statistic is 0.  An export hands out
    the inventory as it was before the purge. *)
Theorem render_settings_view_purge (export purge confirm : bool) (w : World) :
  let w' := fst (render_settings_view export purge confirm w) in
  let out := snd (render_settings_view export purge confirm w) in
  (purge && confirm = false -> w' = w) /\
  (purge && confirm = true ->
     w' = clear_data w /\
     inventory w' = [] /\
     fst (load_data (storage w')) = Ok (JArr []) /\
     (total_items (inventory w'), total_value (inventory w'),
      low_stock_count (inventory w')) = (0, 0%Qc, 0)) /\
  (export = true ->
     exists rest, out = download_button (Encodes (inventory_json (inventory w)))
                        :: rest).
Proof.
  unfold render_settings_view.
  destruct export, purge, confirm; cbn;
    repeat split; try discriminate; eexists; reflexivity.
Qed.

(** ** More compositions *)

(** Deleting two ids gives the same inventory in either order, and
    deleting an id a second time changes nothing. *)
Theorem delete_item_commutes (a b : Z) (w : World) :
  inventory (fst (delete_item a (fst (delete_item b w))))
    = inventory (fst (delete_item b (fst (delete_item a w)))) /\
  inventory (fst (delete_item a (fst (delete_item a w))))
    = inventory (fst (delete_item a w)).
Proof.
  cbn [delete_item fst inventory]. split.
  - apply filter_comm.
  - now apply filter_implied.
Qed.

(** After a purge the ids start again: the first item added to the
    emptied inventory gets the id 1, whatever ids were in use before. *)
Theorem add_after_clear (nm cat : string) (p : Qc) (q : Z) (w : World) :
  nm <> "" -> p <> 0%Qc -> q <> 0 ->
  inventory (fst (add_item_form nm cat p q true
                                (press_add_item (clear_data w))))
    = [mkItem 1 nm cat p q].
Proof.
  intros Hn Hp Hq.
  now rewrite add_item_form_accepted.
Qed.

Lemma add_after_clear_witness :
  inventory (fst (add_item_form "Pixel 9" "Mobile" (dec 79900 100) 1 true
                                (press_add_item (clear_data first_run))))
    = [mkItem 1 "Pixel 9" "Mobile" (dec 79900 100) 1].
Proof.
  apply (add_after_clear "Pixel 9" "Mobile" (dec 79900 100) 1 first_run);
    [discriminate | discriminate | lia].
Defined.
